(** * AI chat sidebar: settings store and sidebar handlers

    A shallow embedding of

    - [packages/storage/lib/impl/ai-settings-storage.ts]
      (the [aiSettingsStorage] object: [reset], [update]), and
    - the content-script sidebar [App] component
      ([handleSend], [onTooltipAction], [removeAttachment]),

    together with the properties of them that the specification states.

    React component state is a record; an event handler is a function
    from the state it closes over to the state after its updates have been
    applied.  What the handlers read from outside (random identifiers, the
    clock, the answer of the network) is passed to them in an [Env]. *)

From Stdlib Require Import ZArith NArith Ascii String List Bool Lia.
From Stdlib Require Import Floats.SpecFloat.
From stdpp Require Import base option list pretty.

Set Default Proof Using "Type".
Set Warnings "-register-all".
Local Open Scope N_scope.

(** ** JavaScript strings and values *)

Module JS.

(** A JavaScript string is a sequence of UTF-16 code units. *)
Definition JSString := list N.

(** Decoding of the UTF-8 bytes of a literal of this file into code units
    (a code point above U+FFFF becomes a surrogate pair). *)
Fixpoint utf16_of_utf8 (bytes : list N) : JSString :=
  match bytes with
  | [] => []
  | b0 :: r =>
      if b0 <? 0x80 then b0 :: utf16_of_utf8 r
      else if b0 <? 0xE0 then
        match r with
        | b1 :: r' =>
            N.lor (N.shiftl (N.land b0 0x1F) 6) (N.land b1 0x3F)
              :: utf16_of_utf8 r'
        | _ => [0xFFFD]
        end
      else if b0 <? 0xF0 then
        match r with
        | b1 :: b2 :: r' =>
            N.lor (N.shiftl (N.land b0 0x0F) 12)
              (N.lor (N.shiftl (N.land b1 0x3F) 6) (N.land b2 0x3F))
              :: utf16_of_utf8 r'
        | _ => [0xFFFD]
        end
      else
        match r with
        | b1 :: b2 :: b3 :: r' =>
            let cp :=
              N.lor (N.shiftl (N.land b0 0x07) 18)
                (N.lor (N.shiftl (N.land b1 0x3F) 12)
                   (N.lor (N.shiftl (N.land b2 0x3F) 6) (N.land b3 0x3F))) in
            let c := cp - 0x10000 in
            (0xD800 + N.shiftr c 10) :: (0xDC00 + N.land c 0x3FF)
              :: utf16_of_utf8 r'
        | _ => [0xFFFD]
        end
  end.

(** The JavaScript string written by a literal. *)
Definition js (s : string) : JSString :=
  utf16_of_utf8 (map N_of_ascii (list_ascii_of_string s)).

(** [WhiteSpace] and [LineTerminator] code points of ECMAScript: what
    [String.prototype.trim] strips. *)
Definition isWhiteSpace (c : N) : bool :=
  (c =? 0x0009) || (c =? 0x000A) || (c =? 0x000B) || (c =? 0x000C)
  || (c =? 0x000D) || (c =? 0x0020) || (c =? 0x00A0) || (c =? 0x1680)
  || ((0x2000 <=? c) && (c <=? 0x200A))
  || (c =? 0x2028) || (c =? 0x2029) || (c =? 0x202F) || (c =? 0x205F)
  || (c =? 0x3000) || (c =? 0xFEFF).

Fixpoint trimStart (s : JSString) : JSString :=
  match s with
  | [] => []
  | c :: r => if isWhiteSpace c then trimStart r else s
  end.

Definition trimEnd (s : JSString) : JSString := rev (trimStart (rev s)).

(** [s.trim()] *)
Definition trim (s : JSString) : JSString := trimEnd (trimStart s).

(** [s.replace(/\/$/, '')]: the pattern matches one ['/'] at the very end
    of the input (no [m] or [g] flag), and the match is deleted. *)
Definition removeTrailingSlash (s : JSString) : JSString :=
  match rev s with
  | c :: r => if c =? 0x2F then rev r else s
  | [] => s
  end.

(** A number in a template literal, for the non-negative integers that an
    HTTP status is. *)
Definition numberToString (n : N) : JSString := js (pretty n).

(** JavaScript values, as far as [response.json()] can produce them, and
    [undefined].  The properties of an object are listed in the order of
    the JSON text. *)
Inductive Value :=
| VUndefined
| VNull
| VBool (b : bool)
| VNumber (x : spec_float)
| VString (s : JSString)
| VArray (items : list Value)
| VObject (props : list (JSString * Value)).

(** [ToBoolean]. *)
Definition truthy (v : Value) : bool :=
  match v with
  | VUndefined | VNull => false
  | VBool b => b
  | VNumber (S754_zero _) | VNumber S754_nan => false
  | VNumber _ => true
  | VString s => negb (bool_decide (s = []))
  | VArray _ | VObject _ => true
  end.

(** [a || b] *)
Definition or (a b : Value) : Value := if truthy a then a else b.

(** The last binding of [key]: a key that the JSON text repeats keeps
    the value written last. *)
Fixpoint lookupProp (key : JSString) (props : list (JSString * Value))
  : option Value :=
  match props with
  | [] => None
  | (k, v) :: rest =>
      match lookupProp key rest with
      | Some v' => Some v'
      | None => if bool_decide (k = key) then Some v else None
      end
  end.

(** [data?.key], for a [key] that no prototype defines ([reply] and
    [message] are such): [undefined] on [null] and [undefined], on a
    primitive or an array, and on an object without the property. *)
Definition optProp (data : Value) (key : JSString) : Value :=
  match data with
  | VObject props => default VUndefined (lookupProp key props)
  | _ => VUndefined
  end.

End JS.

Import JS.

(** ** The settings store: [ai-settings-storage.ts] *)

Module AiSettingsStorage.

Record AiSettings := {
  apiKey : JSString;
  baseUrl : JSString;
  includeContextByDefault : bool;
}.

(** [Partial<AiSettings>]: each key is present with a value, or absent. *)
Record PartialAiSettings := {
  apiKey_opt : option JSString;
  baseUrl_opt : option JSString;
  includeContextByDefault_opt : option bool;
}.

Definition defaultSettings : AiSettings := {|
  apiKey := js "";
  baseUrl := js "";
  includeContextByDefault := true;
|}.

(** The keys of the record, to speak of its fields one at a time. *)
Inductive Key := KapiKey | KbaseUrl | KincludeContextByDefault.

Definition field (k : Key) (s : AiSettings) : Value :=
  match k with
  | KapiKey => VString (apiKey s)
  | KbaseUrl => VString (baseUrl s)
  | KincludeContextByDefault => VBool (includeContextByDefault s)
  end.

(** [None] when the key is absent from the partial record. *)
Definition field_opt (k : Key) (u : PartialAiSettings) : option Value :=
  match k with
  | KapiKey => VString <$> apiKey_opt u
  | KbaseUrl => VString <$> baseUrl_opt u
  | KincludeContextByDefault => VBool <$> includeContextByDefault_opt u
  end.

(** The object spread [{ ...current, ...updates }]. *)
Definition spread (current : AiSettings) (updates : PartialAiSettings)
  : AiSettings := {|
  apiKey := default (apiKey current) (apiKey_opt updates);
  baseUrl := default (baseUrl current) (baseUrl_opt updates);
  includeContextByDefault :=
    default (includeContextByDefault current)
      (includeContextByDefault_opt updates);
|}.

(** A whole record where a partial one is expected: every key present. *)
Definition allKeys (s : AiSettings) : PartialAiSettings := {|
  apiKey_opt := Some (apiKey s);
  baseUrl_opt := Some (baseUrl s);
  includeContextByDefault_opt := Some (includeContextByDefault s);
|}.

(** Modelled from the spec: [createStorage] of [../base/index.js], which
    is not among the sources.  The store holds one record at a fixed key,
    or nothing before the first access; a sequence of awaited calls is a
    sequence of state transformers. *)
Definition Store := option AiSettings.

(** Modelled from the spec: the argument of [storage.set], a value or an
    updater ("set(partialOrUpdater)"). *)
Inductive ValueOrUpdate :=
| SetValue (value : PartialAiSettings)
| SetUpdate (update : AiSettings -> AiSettings).

(** Modelled from the spec: [storage.get] of the missing [createStorage]:
    "returns current settings (materializing defaults on first access)". *)
Definition storage_get (fallback : AiSettings) (st : Store)
  : AiSettings * Store :=
  match st with
  | Some current => (current, st)
  | None => (fallback, Some fallback)
  end.

(** Modelled from the spec: [storage.set] of the missing [createStorage]:
    "set(partialOrUpdater) merges fields"; an updater is applied to the
    current record. *)
Definition storage_set (fallback : AiSettings) (arg : ValueOrUpdate)
    (st : Store) : Store :=
  let '(current, _) := storage_get fallback st in
  match arg with
  | SetValue value => Some (spread current value)
  | SetUpdate f => Some (f current)
  end.

(** [const storage = createStorage<AiSettings>('ai-settings',
    defaultSettings, ...)] *)
Definition get : Store -> AiSettings * Store := storage_get defaultSettings.
Definition set : ValueOrUpdate -> Store -> Store :=
  storage_set defaultSettings.

(** [reset: async () => { await storage.set(defaultSettings); }] *)
Definition reset (st : Store) : Store :=
  set (SetValue (allKeys defaultSettings)) st.

(** [update: async updates =>
      { await storage.set(current => ({ ...current, ...updates })); }] *)
Definition update (updates : PartialAiSettings) (st : Store) : Store :=
  set (SetUpdate (fun current => spread current updates)) st.

End AiSettingsStorage.

(** ** The sidebar: the [App] component of the content script *)

Module PageContext.
Record t := { title : JSString; url : JSString; text : JSString;
              preview : JSString }.
End PageContext.

Inductive Role := user | assistant.

Module ChatMessage.
(** [content] is typed [string] in the source; at run time the content of
    an assistant message is whatever value the response carried. *)
Record t := { id : JSString; role : Role; content : Value; createdAt : Z;
              usingContext : bool }.
End ChatMessage.

Module Tooltip.
(** A visible tooltip; [TooltipState] is [option Tooltip.t], with [None]
    for [null]. *)
Record t := { text : JSString; x : spec_float; y : spec_float }.
End Tooltip.

Module Attachment.
Record t := { id : JSString; name : JSString; dataUrl : JSString }.
End Attachment.

Module HistoryEntry.
Record t := { role : Role; content : Value }.
End HistoryEntry.

Module AttachmentRef.
Record t := { name : JSString; dataUrl : JSString }.
End AttachmentRef.

Module ContextPayload.
(** [{ ...pageContext, attachments: ... }] *)
Record t := { title : JSString; url : JSString; text : JSString;
              preview : JSString; attachments : list AttachmentRef.t }.
End ContextPayload.

Module Payload.
Record t := { message : JSString; history : list HistoryEntry.t;
              context : option ContextPayload.t }.
End Payload.

Module FetchRequest.
(** The arguments of [fetch]; [body] is the payload that
    [JSON.stringify] serialises. *)
Record t := { url : JSString; method : JSString;
              headers : list (JSString * JSString); body : Payload.t }.
End FetchRequest.

(** What [await response.json()] does: it yields the parsed body, or throws
    an error whose [message] is given. *)
Inductive JsonOutcome :=
| JsonParsed (data : Value)
| JsonThrows (message : JSString).

(** What [await fetch(...)] does: it throws an error whose [message] is
    given, or yields a response. *)
Inductive FetchOutcome :=
| FetchThrows (message : JSString)
| FetchResponse (ok : bool) (status : N) (json : JsonOutcome).

(** What one call of [handleSend] reads from outside the component, in the
    order of its reads. *)
Record Env := {
  userUUID : JSString;          (* crypto.randomUUID() for the user message *)
  userNow : Z;                  (* Date.now() for the user message *)
  fetch : FetchRequest.t -> FetchOutcome;
  assistantUUID : JSString;     (* crypto.randomUUID(), assistant message *)
  assistantNow : Z;             (* Date.now(), assistant message *)
}.

Module Sidebar.
Import AiSettingsStorage.

(** The [useStorage] value, the [useState] cells and the [useRef] cell of
    [App]. *)
Record State := {
  settings : AiSettings;
  sidebarOpen : bool;
  pageContext : option PageContext.t;
  includeContext : bool;
  messages : list ChatMessage.t;
  input : JSString;
  isSending : bool;
  tooltip : option Tooltip.t;
  attachments : list Attachment.t;
  inlineApiKey : JSString;
  inlineBaseUrl : JSString;
  savingSettings : bool;
  selectionMeta : JSString;
  messagesRef : list ChatMessage.t;
}.

(** The initial values of the cells, for the settings read by
    [useStorage] at the first render. *)
Definition initialState (s : AiSettings) : State :=
  {| settings := s; sidebarOpen := false; pageContext := None;
     includeContext := includeContextByDefault s; messages := [];
     input := js ""; isSending := false; tooltip := None;
     attachments := []; inlineApiKey := apiKey s;
     inlineBaseUrl := baseUrl s; savingSettings := false;
     selectionMeta := js ""; messagesRef := [] |}.

Definition setSidebarOpen (v : bool) (st : State) : State :=
  {| settings := settings st; sidebarOpen := v;
     pageContext := pageContext st; includeContext := includeContext st;
     messages := messages st; input := input st; isSending := isSending st;
     tooltip := tooltip st; attachments := attachments st;
     inlineApiKey := inlineApiKey st; inlineBaseUrl := inlineBaseUrl st;
     savingSettings := savingSettings st;
     selectionMeta := selectionMeta st; messagesRef := messagesRef st |}.

(** [setMessages(prev => f(prev))] *)
Definition setMessages (f : list ChatMessage.t -> list ChatMessage.t)
    (st : State) : State :=
  {| settings := settings st; sidebarOpen := sidebarOpen st;
     pageContext := pageContext st; includeContext := includeContext st;
     messages := f (messages st); input := input st;
     isSending := isSending st;
     tooltip := tooltip st; attachments := attachments st;
     inlineApiKey := inlineApiKey st; inlineBaseUrl := inlineBaseUrl st;
     savingSettings := savingSettings st;
     selectionMeta := selectionMeta st; messagesRef := messagesRef st |}.

Definition setInput (v : JSString) (st : State) : State :=
  {| settings := settings st; sidebarOpen := sidebarOpen st;
     pageContext := pageContext st; includeContext := includeContext st;
     messages := messages st; input := v; isSending := isSending st;
     tooltip := tooltip st; attachments := attachments st;
     inlineApiKey := inlineApiKey st; inlineBaseUrl := inlineBaseUrl st;
     savingSettings := savingSettings st;
     selectionMeta := selectionMeta st; messagesRef := messagesRef st |}.

Definition setIsSending (v : bool) (st : State) : State :=
  {| settings := settings st; sidebarOpen := sidebarOpen st;
     pageContext := pageContext st; includeContext := includeContext st;
     messages := messages st; input := input st; isSending := v;
     tooltip := tooltip st; attachments := attachments st;
     inlineApiKey := inlineApiKey st; inlineBaseUrl := inlineBaseUrl st;
     savingSettings := savingSettings st;
     selectionMeta := selectionMeta st; messagesRef := messagesRef st |}.

Definition setTooltip (v : option Tooltip.t) (st : State) : State :=
  {| settings := settings st; sidebarOpen := sidebarOpen st;
     pageContext := pageContext st; includeContext := includeContext st;
     messages := messages st; input := input st; isSending := isSending st;
     tooltip := v; attachments := attachments st;
     inlineApiKey := inlineApiKey st; inlineBaseUrl := inlineBaseUrl st;
     savingSettings := savingSettings st;
     selectionMeta := selectionMeta st; messagesRef := messagesRef st |}.

Definition setSelectionMeta (v : JSString) (st : State) : State :=
  {| settings := settings st; sidebarOpen := sidebarOpen st;
     pageContext := pageContext st; includeContext := includeContext st;
     messages := messages st; input := input st; isSending := isSending st;
     tooltip := tooltip st; attachments := attachments st;
     inlineApiKey := inlineApiKey st; inlineBaseUrl := inlineBaseUrl st;
     savingSettings := savingSettings st;
     selectionMeta := v; messagesRef := messagesRef st |}.

(** [setAttachments(prev => f(prev))] *)
Definition setAttachments (f : list Attachment.t -> list Attachment.t)
    (st : State) : State :=
  {| settings := settings st; sidebarOpen := sidebarOpen st;
     pageContext := pageContext st; includeContext := includeContext st;
     messages := messages st; input := input st; isSending := isSending st;
     tooltip := tooltip st; attachments := f (attachments st);
     inlineApiKey := inlineApiKey st; inlineBaseUrl := inlineBaseUrl st;
     savingSettings := savingSettings st;
     selectionMeta := selectionMeta st; messagesRef := messagesRef st |}.

(** [useEffect(() => { messagesRef.current = messages; }, [messages])] *)
Definition syncMessagesRef (st : State) : State :=
  {| settings := settings st; sidebarOpen := sidebarOpen st;
     pageContext := pageContext st; includeContext := includeContext st;
     messages := messages st; input := input st; isSending := isSending st;
     tooltip := tooltip st; attachments := attachments st;
     inlineApiKey := inlineApiKey st; inlineBaseUrl := inlineBaseUrl st;
     savingSettings := savingSettings st;
     selectionMeta := selectionMeta st; messagesRef := messages st |}.

(** [a || b] on two strings. *)
Definition orString (a b : JSString) : JSString :=
  if bool_decide (a = []) then b else a.

(** [xs.slice(-n)] *)
Definition sliceLast {A} (n : nat) (xs : list A) : list A :=
  drop (length xs - n) xs.

(** *** [handleSend] *)

(** The texts of the source, evaluated to their code units once. *)
Definition notConfiguredText : JSString :=
  Eval vm_compute in
  js "已记录你的问题，但还没有配置 API Key 与 Base URL。请先在侧边栏或 Options 页面填入后再试一次。".

Definition placeholderText : JSString :=
  Eval vm_compute in
  js "对话已发送到你的模型，请根据后端返回结构调整取值字段。".

Definition requestFailedPrefix : JSString :=
  Eval vm_compute in js "请求失败: ".

(** [(rawText ?? input).trim()] *)
Definition promptOf (rawText : option JSString) (st : State) : JSString :=
  trim (default (input st) rawText).

(** [(inlineApiKey || settings.apiKey).trim()] *)
Definition effectiveApiKey (st : State) : JSString :=
  trim (orString (inlineApiKey st) (apiKey (settings st))).

(** [(inlineBaseUrl || settings.baseUrl).trim()] *)
Definition effectiveBaseUrl (st : State) : JSString :=
  trim (orString (inlineBaseUrl st) (baseUrl (settings st))).

(** What [handleSend] has computed when it reaches [if (apiKey && baseUrl)];
    the rest of the function reads nothing else of the component. *)
Record Prepared := {
  userMessage : ChatMessage.t;
  preparedApiKey : JSString;
  preparedBaseUrl : JSString;
  contextPayload : option ContextPayload.t;
  payload : Payload.t;
}.

(** Lines 286-319: [None] is the early [return] on an empty prompt. *)
Definition prepare (rawText : option JSString) (uuid : JSString) (now : Z)
    (st : State) : option Prepared :=
  let prompt := promptOf rawText st in
  if bool_decide (prompt = []) then None
  else
    let usingContext :=
      includeContext st && bool_decide (is_Some (pageContext st)) in
    let userMessage :=
      {| ChatMessage.id := uuid; ChatMessage.role := user;
         ChatMessage.content := VString prompt;
         ChatMessage.createdAt := now;
         ChatMessage.usingContext := usingContext |} in
    let apiKey := effectiveApiKey st in
    let baseUrl := effectiveBaseUrl st in
    let contextPayload :=
      if usingContext then
        (fun pc =>
           {| ContextPayload.title := PageContext.title pc;
              ContextPayload.url := PageContext.url pc;
              ContextPayload.text := PageContext.text pc;
              ContextPayload.preview := PageContext.preview pc;
              ContextPayload.attachments :=
                map (fun file =>
                       {| AttachmentRef.name := Attachment.name file;
                          AttachmentRef.dataUrl := Attachment.dataUrl file |})
                    (attachments st) |}) <$> pageContext st
      else None in
    let payload :=
      {| Payload.message := prompt;
         Payload.history :=
           map (fun m =>
                  {| HistoryEntry.role := ChatMessage.role m;
                     HistoryEntry.content := ChatMessage.content m |})
               (sliceLast 6 (messagesRef st ++ [userMessage]));
         Payload.context := contextPayload |} in
    Some {| userMessage := userMessage; preparedApiKey := apiKey;
            preparedBaseUrl := baseUrl; contextPayload := contextPayload;
            payload := payload |}.

(** Lines 298-301: the four updates queued before the request. *)
Definition afterUserMessage (p : Prepared) (st : State) : State :=
  setSidebarOpen true
    (setIsSending true
       (setInput (js "")
          (setMessages (fun prev => prev ++ [userMessage p]) st))).

(** [if (apiKey && baseUrl)] *)
Definition configured (p : Prepared) : bool :=
  truthy (VString (preparedApiKey p)) && truthy (VString (preparedBaseUrl p)).

(** The arguments of the [fetch] call of line 326. *)
Definition chatRequest (p : Prepared) : FetchRequest.t :=
  {| FetchRequest.url :=
       removeTrailingSlash (preparedBaseUrl p) ++ js "/chat";
     FetchRequest.method := js "POST";
     FetchRequest.headers :=
       [ (js "Content-Type", js "application/json");
         (js "Authorization", js "Bearer " ++ preparedApiKey p) ];
     FetchRequest.body := payload p |}.

(** The [try] block and its [catch]: the value of [assistantContent]
    after a request that ended in [outcome]. *)
Definition contentOfOutcome (outcome : FetchOutcome) : Value :=
  match outcome with
  | FetchThrows message => VString (requestFailedPrefix ++ message)
  | FetchResponse ok status json =>
      if negb ok then
        VString (requestFailedPrefix ++ (js "HTTP " ++ numberToString status))
      else
        match json with
        | JsonThrows message => VString (requestFailedPrefix ++ message)
        | JsonParsed data =>
            JS.or (JS.or (optProp data (js "reply"))
                         (optProp data (js "message")))
                  (VString placeholderText)
        end
  end.

(** Lines 349-358: the assistant message and the two updates that end
    the function.  They are functional updates: [st] is the state of the
    component at that moment, which other handlers may have changed while
    the request was awaited. *)
Definition afterAssistantMessage (p : Prepared) (assistantContent : Value)
    (uuid : JSString) (now : Z) (st : State) : State :=
  let assistantMessage :=
    {| ChatMessage.id := uuid; ChatMessage.role := assistant;
       ChatMessage.content := assistantContent;
       ChatMessage.createdAt := now;
       ChatMessage.usingContext :=
         bool_decide (is_Some (contextPayload p)) |} in
  setIsSending false
    (setMessages (fun prev => prev ++ [assistantMessage]) st).

(** [handleSend(rawText)] when no other handler runs before it ends.  The
    second component lists the [fetch] calls made. *)
Definition handleSend (rawText : option JSString) (env : Env) (st : State)
  : State * list FetchRequest.t :=
  match prepare rawText (userUUID env) (userNow env) st with
  | None => (st, [])
  | Some p =>
      let st1 := afterUserMessage p st in
      let '(assistantContent, io) :=
        if configured p then
          (contentOfOutcome (fetch env (chatRequest p)), [chatRequest p])
        else (VString notConfiguredText, []) in
      (afterAssistantMessage p assistantContent
         (assistantUUID env) (assistantNow env) st1, io)
  end.

(** *** The selection tooltip *)

(** What [handleSelection] reads of [window.getSelection()]: [None] is a
    missing selection; [anchorX] and [anchorY] are the two floating-point
    sums that place the tooltip. *)
Record Selection := {
  isCollapsed : bool;
  rangeCount : N;
  selectedText : JSString;    (* selection.toString() *)
  anchorX : spec_float;
  anchorY : spec_float;
}.

(** The listener of [mouseup] and [keyup]; [take 120] is
    [text.slice(0, 120)]. *)
Definition handleSelection (selection : option Selection) (st : State)
  : State :=
  match selection with
  | None => setTooltip None st
  | Some sel =>
      if isCollapsed sel || (rangeCount sel =? 0) then setTooltip None st
      else
        let text := trim (selectedText sel) in
        if bool_decide (text = []) then setTooltip None st
        else
          setSelectionMeta (take 120 text)
            (setTooltip
               (Some {| Tooltip.text := text; Tooltip.x := anchorX sel;
                        Tooltip.y := anchorY sel |}) st)
  end.

Definition clearTooltip (st : State) : State := setTooltip None st.

Inductive Intent := chat | translate | like.

Definition translateTemplate : JSString :=
  Eval vm_compute in
  js "请把下面的文字翻译成中文并保留关键信息：".

Definition likeTemplate : JSString :=
  Eval vm_compute in
  js "针对这段话给出一句鼓励或点赞：".

Definition lineFeed : JSString := [0x0A].

(** The [prompt] of [onTooltipAction]. *)
Definition tooltipPrompt (intent : Intent) (base : JSString) : JSString :=
  match intent with
  | translate => translateTemplate ++ lineFeed ++ base
  | like => likeTemplate ++ lineFeed ++ base
  | chat => base
  end.

(** [onTooltipAction(intent)].  [handleSend] reads none of the two cells
    that are set before it is called, so it is run on the state in which
    they are set. *)
Definition onTooltipAction (intent : Intent) (env : Env) (st : State)
  : State * list FetchRequest.t :=
  match tooltip st with
  | None => (st, [])
  | Some t =>
      if bool_decide (Tooltip.text t = []) then (st, [])
      else
        let base := trim (Tooltip.text t) in
        let prompt := tooltipPrompt intent base in
        handleSend (Some prompt) env
          (setTooltip None (setSidebarOpen true st))
  end.

(** *** Attachments *)

(** [setAttachments(prev => prev.filter(item => item.id !== id))] *)
Definition removeAttachment (id : JSString) (st : State) : State :=
  setAttachments (filter (fun item => Attachment.id item <> id)) st.

(** *** The remaining cells *)

Definition setPageContext (v : option PageContext.t) (st : State) : State :=
  {| settings := settings st; sidebarOpen := sidebarOpen st;
     pageContext := v; includeContext := includeContext st;
     messages := messages st; input := input st; isSending := isSending st;
     tooltip := tooltip st; attachments := attachments st;
     inlineApiKey := inlineApiKey st; inlineBaseUrl := inlineBaseUrl st;
     savingSettings := savingSettings st;
     selectionMeta := selectionMeta st; messagesRef := messagesRef st |}.

(** [setIncludeContext(prev => f(prev))] *)
Definition setIncludeContext (f : bool -> bool) (st : State) : State :=
  {| settings := settings st; sidebarOpen := sidebarOpen st;
     pageContext := pageContext st; includeContext := f (includeContext st);
     messages := messages st; input := input st; isSending := isSending st;
     tooltip := tooltip st; attachments := attachments st;
     inlineApiKey := inlineApiKey st; inlineBaseUrl := inlineBaseUrl st;
     savingSettings := savingSettings st;
     selectionMeta := selectionMeta st; messagesRef := messagesRef st |}.

Definition setInlineApiKey (v : JSString) (st : State) : State :=
  {| settings := settings st; sidebarOpen := sidebarOpen st;
     pageContext := pageContext st; includeContext := includeContext st;
     messages := messages st; input := input st; isSending := isSending st;
     tooltip := tooltip st; attachments := attachments st;
     inlineApiKey := v; inlineBaseUrl := inlineBaseUrl st;
     savingSettings := savingSettings st;
     selectionMeta := selectionMeta st; messagesRef := messagesRef st |}.

Definition setInlineBaseUrl (v : JSString) (st : State) : State :=
  {| settings := settings st; sidebarOpen := sidebarOpen st;
     pageContext := pageContext st; includeContext := includeContext st;
     messages := messages st; input := input st; isSending := isSending st;
     tooltip := tooltip st; attachments := attachments st;
     inlineApiKey := inlineApiKey st; inlineBaseUrl := v;
     savingSettings := savingSettings st;
     selectionMeta := selectionMeta st; messagesRef := messagesRef st |}.

Definition setSavingSettings (v : bool) (st : State) : State :=
  {| settings := settings st; sidebarOpen := sidebarOpen st;
     pageContext := pageContext st; includeContext := includeContext st;
     messages := messages st; input := input st; isSending := isSending st;
     tooltip := tooltip st; attachments := attachments st;
     inlineApiKey := inlineApiKey st; inlineBaseUrl := inlineBaseUrl st;
     savingSettings := v;
     selectionMeta := selectionMeta st; messagesRef := messagesRef st |}.

(** A new value of [useStorage(aiSettingsStorage)]. *)
Definition withSettings (s : AiSettings) (st : State) : State :=
  {| settings := s; sidebarOpen := sidebarOpen st;
     pageContext := pageContext st; includeContext := includeContext st;
     messages := messages st; input := input st; isSending := isSending st;
     tooltip := tooltip st; attachments := attachments st;
     inlineApiKey := inlineApiKey st; inlineBaseUrl := inlineBaseUrl st;
     savingSettings := savingSettings st;
     selectionMeta := selectionMeta st; messagesRef := messagesRef st |}.

(** The effect on [[settings]]: the three cells that mirror the settings
    are set from them. *)
Definition syncFromSettings (st : State) : State :=
  setIncludeContext (fun _ => includeContextByDefault (settings st))
    (setInlineBaseUrl (baseUrl (settings st))
       (setInlineApiKey (apiKey (settings st)) st)).

(** *** [clampText] and the extraction of the page *)

(** [value.replace(/\s+/g, ' ')]: every maximal run of white space becomes
    one space.  [inRun] tells that the code unit before was white space. *)
Fixpoint collapseFrom (inRun : bool) (s : JSString) : JSString :=
  match s with
  | [] => []
  | c :: r =>
      if isWhiteSpace c then
        if inRun then collapseFrom true r else 0x20 :: collapseFrom true r
      else c :: collapseFrom false r
  end.

Definition collapseWhiteSpace (s : JSString) : JSString := collapseFrom false s.

(** [clampText(value, limit)], for a limit that is a natural number, as the
    two limits of the source are; [take] is [slice(0, limit)]. *)
Definition clampText (value : JSString) (limit : nat) : JSString :=
  take limit (trim (collapseWhiteSpace value)).

(** The default of the second parameter. *)
Definition clampLimit : nat := 1200.

Definition defaultTitle : JSString := Eval vm_compute in js "当前页面".

(** What [buildReadableContext] reads of the article that
    [new Readability(docClone).parse()] returns; [None] in a field is a
    [null] or [undefined] field. *)
Record Article := {
  articleTitle : option JSString;
  textContent : option JSString;
  excerpt : option JSString;
}.

(** What is read of [document] and [location]. *)
Record Page := {
  documentTitle : JSString;     (* document.title *)
  innerText : JSString;         (* document.body.innerText *)
  href : JSString;              (* location.href *)
}.

(** [buildReadableContext()], given what [parse()] returned ([None] for
    [null]). *)
Definition buildReadableContext (parsed : option Article) (page : Page)
  : PageContext.t :=
  let textContent := default (js "") (trim <$> (parsed ≫= textContent)) in
  let excerpt := default (js "") (parsed ≫= excerpt) in
  let combined := orString (orString textContent excerpt) (innerText page) in
  {| PageContext.title :=
       orString (orString (default (js "") (parsed ≫= articleTitle))
                          (documentTitle page))
                defaultTitle;
     PageContext.url := href page;
     PageContext.text := combined;
     PageContext.preview := clampText combined clampLimit |}.

(** How the [try] block of the timer ends: [buildReadableContext] returns,
    with the article that was parsed, or something in it throws. *)
Inductive Extraction :=
| Parsed (parsed : option Article)
| ExtractionThrows.

(** The callback of the timer of 350 ms. *)
Definition extractPageContext (outcome : Extraction) (page : Page)
    (st : State) : State :=
  match outcome with
  | Parsed parsed => setPageContext (Some (buildReadableContext parsed page)) st
  | ExtractionThrows =>
      let fallbackText :=
        clampText (orString (innerText page) (js "")) clampLimit in
      setPageContext
        (Some {| PageContext.title :=
                   orString (documentTitle page) defaultTitle;
                 PageContext.url := href page;
                 PageContext.text := fallbackText;
                 PageContext.preview := fallbackText |}) st
  end.

(** [contextPreview]; [None] is [null]. *)
Definition contextPreview (st : State) : option JSString :=
  if negb (includeContext st) then None
  else
    match pageContext st with
    | None => None
    | Some pc =>
        Some (PageContext.title pc ++ lineFeed ++ PageContext.url pc
              ++ lineFeed ++ clampText (PageContext.preview pc) 500)
    end.

Definition toggleContext (st : State) : State := setIncludeContext negb st.

(** *** The message of the action button *)

Definition toggleType : JSString := Eval vm_compute in js "AI_CHAT_TOGGLE".

(** [typeof v === 'object' && v !== null] *)
Definition isObject (v : Value) : bool :=
  match v with
  | VArray _ | VObject _ => true
  | _ => false
  end.

(** [v === s] for a string [s] *)
Definition strictEqualsString (v : Value) (s : JSString) : bool :=
  match v with
  | VString t => bool_decide (t = s)
  | _ => false
  end.

(** The listener of [chrome.runtime.onMessage]; the second component is
    the argument of [sendResponse], if it is called. *)
Definition onMessage (message : Value) (st : State) : State * option Value :=
  if isObject message
     && strictEqualsString (optProp message (js "type")) toggleType
  then (setSidebarOpen true st, Some (VObject [(js "ok", VBool true)]))
  else (st, None).

(** *** Files *)

(** What is read of a [File], with the data URL that [readAsDataURL] will
    produce for it. *)
Record ImageFile := {
  fileName : JSString;
  fileDataUrl : JSString;
}.

(** [handleFileInput(files)]: the files for which a reader is started;
    [None] is [null]. *)
Definition handleFileInput (files : option (list ImageFile))
  : list ImageFile :=
  match files with
  | None => []
  | Some fs => if bool_decide (length fs = 0%nat) then [] else take 3 fs
  end.

(** [reader.onload], for the reader of [file]; [uuid] is the value of
    [crypto.randomUUID()]. *)
Definition onload (file : ImageFile) (uuid : JSString) (st : State) : State :=
  setAttachments
    (fun prev =>
       prev ++ [ {| Attachment.id := uuid; Attachment.name := fileName file;
                    Attachment.dataUrl := fileDataUrl file |} ]) st.

(** The [onload] events in the order in which the readers finish. *)
Definition runLoads (events : list (ImageFile * JSString)) (st : State)
  : State :=
  foldl (fun acc e => onload e.1 e.2 acc) st events.

(** The [disabled] attribute of the send button:
    [isSending || !input.trim()]. *)
Definition sendDisabled (st : State) : bool :=
  isSending st || bool_decide (trim (input st) = []).

(** *** [persistSettings] *)

(** The argument of [aiSettingsStorage.update] in [persistSettings]. *)
Definition persistedUpdate (st : State) : PartialAiSettings :=
  {| apiKey_opt := Some (trim (inlineApiKey st));
     baseUrl_opt := Some (trim (inlineBaseUrl st));
     includeContextByDefault_opt := Some (includeContext st) |}.

(** [persistSettings()], on the component and on the store. *)
Definition persistSettings (st : State) (store : Store) : State * Store :=
  (setSavingSettings false (setSavingSettings true st),
   update (persistedUpdate st) store).

End Sidebar.

(** ** The options page: the [Options] component *)

Module OptionsPage.
Import AiSettingsStorage.

(** The cells of [Options], without the theme. *)
Record State := {
  settings : AiSettings;
  draftApiKey : JSString;
  draftBaseUrl : JSString;
  includeContext : bool;
  saving : bool;
}.

Definition initialState (s : AiSettings) : State :=
  {| settings := s; draftApiKey := apiKey s; draftBaseUrl := baseUrl s;
     includeContext := includeContextByDefault s; saving := false |}.

Definition setDraftApiKey (v : JSString) (st : State) : State :=
  {| settings := settings st; draftApiKey := v;
     draftBaseUrl := draftBaseUrl st; includeContext := includeContext st;
     saving := saving st |}.

Definition setDraftBaseUrl (v : JSString) (st : State) : State :=
  {| settings := settings st; draftApiKey := draftApiKey st;
     draftBaseUrl := v; includeContext := includeContext st;
     saving := saving st |}.

Definition setIncludeContext (v : bool) (st : State) : State :=
  {| settings := settings st; draftApiKey := draftApiKey st;
     draftBaseUrl := draftBaseUrl st; includeContext := v;
     saving := saving st |}.

Definition setSaving (v : bool) (st : State) : State :=
  {| settings := settings st; draftApiKey := draftApiKey st;
     draftBaseUrl := draftBaseUrl st; includeContext := includeContext st;
     saving := v |}.

(** A new value of [useStorage(aiSettingsStorage)]. *)
Definition withSettings (s : AiSettings) (st : State) : State :=
  {| settings := s; draftApiKey := draftApiKey st;
     draftBaseUrl := draftBaseUrl st; includeContext := includeContext st;
     saving := saving st |}.

(** The effect on [[settings]]. *)
Definition syncFromSettings (st : State) : State :=
  setIncludeContext (includeContextByDefault (settings st))
    (setDraftBaseUrl (baseUrl (settings st))
       (setDraftApiKey (apiKey (settings st)) st)).

(** [hasChanges] *)
Definition hasChanges (st : State) : bool :=
  negb (bool_decide (draftApiKey st = apiKey (settings st)))
  || negb (bool_decide (draftBaseUrl st = baseUrl (settings st)))
  || negb (eqb (includeContext st) (includeContextByDefault (settings st))).

(** The argument of [aiSettingsStorage.update] in [saveSettings]. *)
Definition savedUpdate (st : State) : PartialAiSettings :=
  {| apiKey_opt := Some (trim (draftApiKey st));
     baseUrl_opt := Some (trim (draftBaseUrl st));
     includeContextByDefault_opt := Some (includeContext st) |}.

(** [saveSettings()], on the component and on the store. *)
Definition saveSettings (st : State) (store : Store) : State * Store :=
  (setSaving false (setSaving true st), update (savedUpdate st) store).

(** [resetSettings()] *)
Definition resetSettings (st : State) (store : Store) : State * Store :=
  (setSaving false (setSaving true st), reset store).

End OptionsPage.

(** ** The background script *)

Module Background.

(** [toggleContentSidebar(tabId)]: the message handed to
    [chrome.tabs.sendMessage] and the tab it is sent to, if any.  A
    rejection of the call is caught and logged.  [None] is a missing
    [tab.id]. *)
Definition toggleContentSidebar (tabId : option Z) : option (Z * Value) :=
  match tabId with
  | None => None
  | Some tab =>
      if (tab =? 0)%Z then None
      else Some (tab, VObject [(js "type", VString Sidebar.toggleType)])
  end.

End Background.

Import AiSettingsStorage Sidebar.

Local Close Scope N_scope.

(** * Vocabulary of the properties *)

(** The string does not begin with white space. *)
Definition noLeadingSpace (s : JSString) : Prop :=
  match s with
  | [] => True
  | c :: _ => isWhiteSpace c = false
  end.

(** The string ends with the code unit [c]. *)
Definition endsWith (c : N) (s : JSString) : Prop := last s = Some c.

Definition slash : N := 0x2F%N.

(** The reading of a response body as the specification words it: the
    [reply] field when it is present, otherwise the [message] field when it
    is present, otherwise the placeholder. *)
Definition replyAsSpecified (data : Value) : Value :=
  match data with
  | VObject props =>
      match lookupProp (js "reply") props with
      | Some reply => reply
      | None =>
          match lookupProp (js "message") props with
          | Some message => message
          | None => VString placeholderText
          end
      end
  | _ => VString placeholderText
  end.

(** The history entry of a message: [{ role: m.role, content: m.content }]. *)
Definition entryOf (m : ChatMessage.t) : HistoryEntry.t :=
  {| HistoryEntry.role := ChatMessage.role m;
     HistoryEntry.content := ChatMessage.content m |}.

(** Every code unit of the string is white space. *)
Definition blank (s : JSString) : Prop :=
  Forall (fun c => isWhiteSpace c = true) s.

(** The only white space in the string is the space. *)
Definition plainSpaces (s : JSString) : Prop :=
  Forall (fun c => isWhiteSpace c = true -> c = 0x20%N) s.

(** No two neighbours in the string are both white space. *)
Fixpoint singleSpaced (s : JSString) : Prop :=
  match s with
  | c :: r =>
      match r with
      | d :: _ => isWhiteSpace c && isWhiteSpace d = false
      | [] => True
      end /\ singleSpaced r
  | [] => True
  end.

(** How a request can fail: [fetch] throws, the status is no success, or
    the body is no JSON. *)
Definition failed (outcome : FetchOutcome) : Prop :=
  match outcome with
  | FetchResponse true _ (JsonParsed _) => False
  | _ => True
  end.

(** The cells that [handleSend] never writes. *)
Definition sameOutsideSend (st st' : State) : Prop :=
  settings st' = settings st
  /\ pageContext st' = pageContext st
  /\ includeContext st' = includeContext st
  /\ tooltip st' = tooltip st
  /\ attachments st' = attachments st
  /\ inlineApiKey st' = inlineApiKey st
  /\ inlineBaseUrl st' = inlineBaseUrl st
  /\ savingSettings st' = savingSettings st
  /\ selectionMeta st' = selectionMeta st
  /\ messagesRef st' = messagesRef st.

(** ** Sample inputs *)

Module Sample.

Definition configuredSettings : AiSettings :=
  {| apiKey := js "k"; baseUrl := js "https://x/";
     includeContextByDefault := true |}.

(** An environment whose network answers every request with [outcome]. *)
Definition env (outcome : FetchOutcome) : Env :=
  {| userUUID := js "id-1"; userNow := 1700000000000%Z;
     fetch := fun _ => outcome;
     assistantUUID := js "id-2"; assistantNow := 1700000000001%Z |}.

Definition replyHi : FetchOutcome :=
  FetchResponse true 200%N
    (JsonParsed (VObject [(js "reply", VString (js "hi"))])).

(** A body whose [reply] field is present and empty. *)
Definition emptyReplyBody : Value :=
  VObject [(js "reply", VString (js ""));
           (js "message", VString (js "hi"))].

Definition emptyReply : FetchOutcome :=
  FetchResponse true 200%N (JsonParsed emptyReplyBody).

Definition message (n : Z) (r : Role) (c : string) : ChatMessage.t :=
  {| ChatMessage.id := js "m"; ChatMessage.role := r;
     ChatMessage.content := VString (js c); ChatMessage.createdAt := n;
     ChatMessage.usingContext := false |}.

(** Seven earlier messages, the reference cell in step with them. *)
Definition busyState : State :=
  syncMessagesRef
    (setMessages
       (fun _ => [message 1 user "a"; message 2 assistant "b";
                  message 3 user "c"; message 4 assistant "d";
                  message 5 user "e"; message 6 assistant "f";
                  message 7 user "g"])
       (setInput (js " next ") (initialState configuredSettings))).

Definition attachment (i n : string) : Attachment.t :=
  {| Attachment.id := js i; Attachment.name := js n;
     Attachment.dataUrl := js "data:image/png;base64,AA==" |}.

Definition selectedTooltip : Tooltip.t :=
  {| Tooltip.text := js "good morning"; Tooltip.x := S754_zero false;
     Tooltip.y := S754_zero false |}.

Definition article : Article :=
  {| articleTitle := Some (js "");
     textContent := Some (js "  Hello,
   world  ");
     excerpt := None |}.

Definition page : Page :=
  {| documentTitle := js ""; innerText := js "menu Hello, world footer";
     href := js "https://example.org/a" |}.

Definition photo (n : string) : ImageFile :=
  {| fileName := js n; fileDataUrl := js "data:image/png;base64,AA==" |}.

Definition toggleMessage : Value :=
  VObject [(js "type", VString (js "AI_CHAT_TOGGLE"))].

End Sample.

(** * Properties *)

(** ** Trimming *)

Section Trim.

Lemma trimStart_noLeadingSpace s : noLeadingSpace (trimStart s).
Proof.
  induction s as [|c r IH]; simpl; [done|].
  destruct (isWhiteSpace c) eqn:Hc; [done|]. simpl. done.
Qed.

Lemma trimStart_fixed s : noLeadingSpace s -> trimStart s = s.
Proof. destruct s as [|c r]; simpl; [done|]. by intros ->. Qed.

Lemma trimStart_suffix s : exists pre, s = pre ++ trimStart s.
Proof.
  induction s as [|c r [pre IH]]; simpl.
  - by exists [].
  - destruct (isWhiteSpace c).
    + exists (c :: pre). simpl. by f_equal.
    + by exists [].
Qed.

Lemma noLeadingSpace_app s1 s2 :
  s1 <> [] -> noLeadingSpace s1 -> noLeadingSpace (s1 ++ s2).
Proof. destruct s1; simpl; done. Qed.

Lemma noLeadingSpace_prefix s1 s2 :
  s1 <> [] -> noLeadingSpace (s1 ++ s2) -> noLeadingSpace s1.
Proof. destruct s1; simpl; done. Qed.

Lemma trim_fixed s :
  noLeadingSpace s -> noLeadingSpace (rev s) -> trim s = s.
Proof.
  intros H1 H2. unfold trim, trimEnd.
  rewrite (trimStart_fixed s H1), (trimStart_fixed (rev s) H2).
  apply rev_involutive.
Qed.

Lemma trim_noLeadingSpace_rev s : noLeadingSpace (rev (trim s)).
Proof.
  unfold trim, trimEnd. rewrite rev_involutive.
  apply trimStart_noLeadingSpace.
Qed.

Lemma trim_noLeadingSpace s : noLeadingSpace (trim s).
Proof.
  unfold trim, trimEnd.
  destruct (trimStart_suffix (rev (trimStart s))) as [pre Hpre].
  set (u := trimStart (rev (trimStart s))) in *.
  destruct (decide (u = [])) as [->|Hu]; [done|].
  apply (f_equal (@rev N)) in Hpre.
  rewrite rev_involutive, rev_app_distr in Hpre.
  apply (noLeadingSpace_prefix (rev u) (rev pre)).
  - intros E. apply Hu. apply (f_equal (@rev N)) in E.
    by rewrite rev_involutive in E.
  - rewrite <- Hpre. apply trimStart_noLeadingSpace.
Qed.

Lemma trim_idempotent s : trim (trim s) = trim s.
Proof.
  apply trim_fixed;
    [apply trim_noLeadingSpace | apply trim_noLeadingSpace_rev].
Qed.

(** A string that starts with a character that is no white space, followed
    by a trimmed non-empty string, is itself trimmed. *)
Lemma trim_app_trimmed s1 s2 :
  s1 <> [] -> noLeadingSpace s1 -> trim s2 <> [] ->
  trim (s1 ++ trim s2) = s1 ++ trim s2.
Proof.
  intros Hne H1 H2. apply trim_fixed.
  - by apply noLeadingSpace_app.
  - rewrite rev_app_distr. apply noLeadingSpace_app.
    + intros E. apply H2. apply (f_equal (@rev N)) in E.
      by rewrite rev_involutive in E.
    + apply trim_noLeadingSpace_rev.
Qed.

End Trim.

(** ** The settings store *)

Section Storage.

Lemma get_after_set_update f st :
  (get (set (SetUpdate f) st)).1 = f (get st).1.
Proof. by destruct st. Qed.

Lemma get_after_set_value v st :
  (get (set (SetValue v) st)).1 = spread (get st).1 v.
Proof. by destruct st. Qed.

Lemma field_spread k current updates :
  field k (spread current updates)
  = default (field k current) (field_opt k updates).
Proof.
  destruct k, updates as [[a|] [b|] [c|]]; reflexivity.
Qed.

Lemma spread_allKeys current s : spread current (allKeys s) = s.
Proof. by destruct s. Qed.

(** Reading does not change what is read next. *)
Lemma get_get st : (get (get st).2).1 = (get st).1.
Proof. by destruct st. Qed.

End Storage.

(** C1. For every prior settings record [S] (what [get()] returns before)
    and every partial update [U], [get()] after [update(U)] returns a record
    that has, at each key present in [U], the value of [U], and at every
    other key the value of [S]. *)
Theorem update_then_get (st : Store) (U : PartialAiSettings) (k : Key) :
  field k (get (update U st)).1
  = match field_opt k U with
    | Some v => v
    | None => field k (get st).1
    end.
Proof.
  unfold update. rewrite get_after_set_update, field_spread.
  by destruct (field_opt k U).
Qed.

(** C4. [get()] after [reset()] returns the default record
    [{apiKey: "", baseUrl: "", includeContextByDefault: true}], whatever the
    store held before. *)
Theorem reset_then_get (st : Store) :
  (get (reset st)).1
  = {| apiKey := []; baseUrl := []; includeContextByDefault := true |}.
Proof.
  unfold reset. rewrite get_after_set_value, spread_allKeys. reflexivity.
Qed.

(** ** [handleSend] *)

Section HandleSend.

Implicit Types (st : State) (env : Env) (rawText : option JSString).

Lemma prepare_empty rawText uuid now st :
  promptOf rawText st = [] -> prepare rawText uuid now st = None.
Proof. intros H. unfold prepare. rewrite H. reflexivity. Qed.

Lemma prepare_nonempty rawText uuid now st :
  promptOf rawText st <> [] ->
  exists p,
    prepare rawText uuid now st = Some p
    /\ ChatMessage.id (userMessage p) = uuid
    /\ ChatMessage.role (userMessage p) = user
    /\ ChatMessage.content (userMessage p) = VString (promptOf rawText st)
    /\ ChatMessage.createdAt (userMessage p) = now
    /\ preparedApiKey p = effectiveApiKey st
    /\ preparedBaseUrl p = effectiveBaseUrl st
    /\ Payload.message (payload p) = promptOf rawText st
    /\ Payload.history (payload p)
       = map entryOf (sliceLast 6 (messagesRef st ++ [userMessage p])).
Proof.
  intros H. unfold prepare. rewrite bool_decide_eq_false_2 by done.
  eexists. split; [reflexivity|]. simpl. repeat split.
Qed.

Lemma prepare_Some_nonempty rawText uuid now st p :
  prepare rawText uuid now st = Some p -> promptOf rawText st <> [].
Proof.
  unfold prepare. case_bool_decide; [done|]. by intros _.
Qed.

Lemma configured_iff p :
  configured p = true <-> preparedApiKey p <> [] /\ preparedBaseUrl p <> [].
Proof.
  unfold configured. simpl. rewrite andb_true_iff, !negb_true_iff.
  rewrite !bool_decide_eq_false. done.
Qed.

Lemma configured_false p :
  preparedApiKey p = [] \/ preparedBaseUrl p = [] -> configured p = false.
Proof.
  intros H. apply not_true_is_false. rewrite configured_iff. tauto.
Qed.

(** The updates of [handleSend] touch four cells only. *)
Lemma afterUserMessage_messages p st :
  messages (afterUserMessage p st) = messages st ++ [userMessage p].
Proof. reflexivity. Qed.

Lemma afterAssistantMessage_messages p c uuid now st :
  exists a,
    messages (afterAssistantMessage p c uuid now st) = messages st ++ [a]
    /\ ChatMessage.id a = uuid /\ ChatMessage.role a = assistant
    /\ ChatMessage.content a = c /\ ChatMessage.createdAt a = now.
Proof. eexists. split; [reflexivity|]. simpl. repeat split. Qed.

(** The shape of a call that gets past the guard on the prompt. *)
Lemma handleSend_nonempty rawText env st :
  promptOf rawText st <> [] ->
  exists p,
    prepare rawText (userUUID env) (userNow env) st = Some p
    /\ handleSend rawText env st
       = if configured p then
           (afterAssistantMessage p
              (contentOfOutcome (fetch env (chatRequest p)))
              (assistantUUID env) (assistantNow env)
              (afterUserMessage p st), [chatRequest p])
         else
           (afterAssistantMessage p (VString notConfiguredText)
              (assistantUUID env) (assistantNow env)
              (afterUserMessage p st), []).
Proof.
  intros H.
  destruct (prepare_nonempty rawText (userUUID env) (userNow env) st H)
    as (p & Hp & _).
  exists p. split; [done|]. unfold handleSend. rewrite Hp.
  by destruct (configured p).
Qed.

Lemma handleSend_tooltip rawText env st :
  tooltip (handleSend rawText env st).1 = tooltip st.
Proof.
  unfold handleSend. destruct (prepare _ _ _ _) as [p|]; [|done].
  by destruct (configured p).
Qed.

Lemma handleSend_sidebarOpen rawText env st :
  sidebarOpen st = true -> sidebarOpen (handleSend rawText env st).1 = true.
Proof.
  unfold handleSend. destruct (prepare _ _ _ _) as [p|]; [|done].
  by destruct (configured p).
Qed.

Lemma handleSend_requests rawText env st req :
  req ∈ (handleSend rawText env st).2 ->
  exists p,
    prepare rawText (userUUID env) (userNow env) st = Some p
    /\ configured p = true /\ req = chatRequest p.
Proof.
  unfold handleSend. destruct (prepare _ _ _ _) as [p|] eqn:Hp; simpl.
  - destruct (configured p) eqn:Hc; simpl.
    + intros ->%list_elem_of_singleton. by exists p.
    + by intros ?%not_elem_of_nil.
  - by intros ?%not_elem_of_nil.
Qed.

End HandleSend.

(** C9. A call of [handleSend] whose prompt (the argument, or else the
    content of the input box) trims to the empty string does nothing: the
    state of the component, with [messages], [input], [isSending],
    [sidebarOpen] and [attachments] in it, is the one before the call, and
    no [fetch] is made. *)
Theorem handleSend_blank_prompt rawText env st :
  trim (default (input st) rawText) = [] ->
  handleSend rawText env st = (st, []).
Proof.
  intros H. unfold handleSend. by rewrite prepare_empty.
Qed.

Lemma handleSend_blank_prompt_witness :
  handleSend (Some (js "  ")) (Sample.env Sample.replyHi) Sample.busyState
  = (Sample.busyState, []).
Proof.
  apply (handleSend_blank_prompt (Some (js "  ")) (Sample.env Sample.replyHi)
           Sample.busyState).
  reflexivity.
Defined.

(** C2. When the effective [apiKey] or the effective [baseUrl] is the empty
    string, [handleSend] makes no [fetch]; and a call that sends (its prompt
    is not empty after trimming) appends the user message and right after it
    the assistant message whose content is the fixed not-configured text. *)
Theorem handleSend_not_configured rawText env st :
  effectiveApiKey st = [] \/ effectiveBaseUrl st = [] ->
  (handleSend rawText env st).2 = []
  /\ (promptOf rawText st <> [] ->
      exists u a,
        messages (handleSend rawText env st).1 = messages st ++ [u; a]
        /\ ChatMessage.role u = user
        /\ ChatMessage.content u = VString (promptOf rawText st)
        /\ ChatMessage.role a = assistant
        /\ ChatMessage.content a
           = VString (js "已记录你的问题，但还没有配置 API Key 与 Base URL。请先在侧边栏或 Options 页面填入后再试一次。")).
Proof.
  intros Hcfg. split.
  - unfold handleSend.
    destruct (prepare _ _ _ _) as [p|] eqn:Hp; [|done].
    pose proof (prepare_Some_nonempty _ _ _ _ _ Hp) as Hne.
    destruct (prepare_nonempty rawText (userUUID env) (userNow env) st Hne)
      as (p' & Hp' & _ & _ & _ & _ & Hk & Hb & _).
    assert (p' = p) as -> by congruence.
    rewrite configured_false; [done|]. by rewrite Hk, Hb.
  - intros Hne.
    destruct (prepare_nonempty rawText (userUUID env) (userNow env) st Hne)
      as (p & Hp & _ & Hrole & Hcontent & _ & Hk & Hb & _).
    unfold handleSend. rewrite Hp.
    rewrite configured_false by (by rewrite Hk, Hb).
    eexists (userMessage p), _. simpl.
    split; [by rewrite <- app_assoc|]. done.
Qed.

(** The scenario of the specification: nothing configured, ["hello"] sent. *)
Lemma handleSend_not_configured_witness :
  (handleSend (Some (js "hello")) (Sample.env Sample.replyHi)
     (initialState defaultSettings)).2 = []
  /\ exists u a,
      messages (handleSend (Some (js "hello")) (Sample.env Sample.replyHi)
                  (initialState defaultSettings)).1 = [u; a]
      /\ ChatMessage.role u = user
      /\ ChatMessage.content u = VString (js "hello")
      /\ ChatMessage.role a = assistant
      /\ ChatMessage.content a = VString notConfiguredText.
Proof.
  destruct (handleSend_not_configured (Some (js "hello"))
              (Sample.env Sample.replyHi) (initialState defaultSettings))
    as [Hio Hmsg]; [left; reflexivity|].
  split; [exact Hio|]. apply Hmsg. vm_compute. discriminate.
Defined.

(** ** The history of a request *)

Section History.

Context {A : Type}.
Implicit Types (xs : list A) (x : A).

Lemma sliceLast_length n xs : length (sliceLast n xs) <= n.
Proof. unfold sliceLast. rewrite length_drop. lia. Qed.

Lemma sliceLast_length_exact n xs :
  length (sliceLast n xs) = Nat.min n (length xs).
Proof. unfold sliceLast. rewrite length_drop. lia. Qed.

Lemma sliceLast_snoc n xs x :
  sliceLast (S n) (xs ++ [x]) = sliceLast n xs ++ [x].
Proof.
  unfold sliceLast. rewrite length_app. simpl.
  replace (length xs + 1 - S n) with (length xs - n) by lia.
  apply drop_app_le. lia.
Qed.

Lemma sliceLast_all n xs : length xs <= n -> sliceLast n xs = xs.
Proof.
  intros H. unfold sliceLast.
  replace (length xs - n) with 0 by lia. reflexivity.
Qed.

End History.

Lemma prepared_history rawText uuid now st p :
  prepare rawText uuid now st = Some p ->
  Payload.history (payload p)
  = map entryOf (sliceLast 5 (messagesRef st))
    ++ [ {| HistoryEntry.role := user;
            HistoryEntry.content := VString (promptOf rawText st) |} ].
Proof.
  intros Hp. pose proof (prepare_Some_nonempty _ _ _ _ _ Hp) as Hne.
  destruct (prepare_nonempty rawText uuid now st Hne)
    as (p' & Hp' & _ & Hrole & Hcontent & _ & _ & _ & _ & Hhist).
  assert (p' = p) as -> by congruence.
  rewrite Hhist, sliceLast_snoc, map_app. simpl. f_equal.
  unfold entryOf. by rewrite Hrole, Hcontent.
Qed.

(** C3. Whatever the list of earlier messages is, the [history] array in
    the body of a request that [handleSend] sends has at most 6 entries, and
    its last entry is the user message of the prompt that is being sent. *)
Theorem request_history_bounded rawText env st req :
  req ∈ (handleSend rawText env st).2 ->
  length (Payload.history (FetchRequest.body req)) <= 6
  /\ last (Payload.history (FetchRequest.body req))
     = Some {| HistoryEntry.role := user;
               HistoryEntry.content := VString (promptOf rawText st) |}.
Proof.
  intros (p & Hp & _ & ->)%handleSend_requests. simpl.
  rewrite (prepared_history _ _ _ _ _ Hp). split.
  - rewrite length_app, length_map. simpl.
    pose proof (sliceLast_length 5 (messagesRef st)). lia.
  - apply last_snoc.
Qed.

Lemma request_history_bounded_witness :
  exists req,
    (handleSend None (Sample.env Sample.replyHi) Sample.busyState).2 = [req]
    /\ length (Payload.history (FetchRequest.body req)) = 6
    /\ last (Payload.history (FetchRequest.body req))
       = Some {| HistoryEntry.role := user;
                 HistoryEntry.content := VString (js "next") |}.
Proof.
  eexists. split; [reflexivity|]. split; [reflexivity|].
  apply (request_history_bounded None (Sample.env Sample.replyHi)
           Sample.busyState).
  apply list_elem_of_here.
Defined.

(** C6. A call of [handleSend] with a non-empty prompt appends one user
    message and then one assistant message to the end of the list and keeps
    the earlier messages as they are and where they are: the list grows by
    two, however the awaited request ends (an answer, an error status, a
    thrown error).  The assistant message is appended by a functional
    update, so it goes to the end of the list also when the list has
    changed while the request was awaited. *)
Theorem handleSend_appends_two rawText env st :
  promptOf rawText st <> [] ->
  (exists u a,
     messages (handleSend rawText env st).1 = messages st ++ [u; a]
     /\ ChatMessage.role u = user /\ ChatMessage.role a = assistant)
  /\ length (messages (handleSend rawText env st).1)
     = length (messages st) + 2
  /\ (forall p, prepare rawText (userUUID env) (userNow env) st = Some p ->
      (exists u, messages (afterUserMessage p st) = messages st ++ [u]
                 /\ ChatMessage.role u = user)
      /\ forall content uuid now later,
           exists a,
             messages (afterAssistantMessage p content uuid now later)
             = messages later ++ [a]
             /\ ChatMessage.role a = assistant).
Proof.
  intros Hne.
  destruct (prepare_nonempty rawText (userUUID env) (userNow env) st Hne)
    as (p & Hp & _ & Hrole & _).
  assert (exists u a,
            messages (handleSend rawText env st).1 = messages st ++ [u; a]
            /\ ChatMessage.role u = user /\ ChatMessage.role a = assistant)
    as Hmsgs.
  { unfold handleSend. rewrite Hp.
    destruct (configured p); eexists (userMessage p), _; simpl;
      (split; [by rewrite <- app_assoc|done]). }
  split; [exact Hmsgs|]. split.
  - destruct Hmsgs as (u & a & -> & _). rewrite length_app. reflexivity.
  - intros p' Hp'. assert (p' = p) as -> by congruence. split.
    + by exists (userMessage p).
    + intros content uuid now later.
      destruct (afterAssistantMessage_messages p content uuid now later)
        as (a & Ha & _ & Hr & _).
      by exists a.
Qed.

Lemma handleSend_appends_two_witness :
  length (messages (handleSend None (Sample.env Sample.replyHi)
                      Sample.busyState).1) = 9.
Proof.
  destruct (handleSend_appends_two None (Sample.env Sample.replyHi)
              Sample.busyState) as (_ & Hlen & _).
  - vm_compute. discriminate.
  - exact Hlen.
Defined.

(** ** The address of the request *)

Section ChatUrl.

Lemma endsWith_snoc c s : endsWith c (s ++ [c]).
Proof. apply last_snoc. Qed.

Lemma endsWith_inv c s : endsWith c s -> exists s', s = s' ++ [c].
Proof. intros H. by apply last_Some. Qed.

(** [removeTrailingSlash] deletes one final ['/'], and nothing else. *)
Lemma removeTrailingSlash_spec s :
  s = removeTrailingSlash s ++ [slash]
  \/ (s = removeTrailingSlash s /\ ~ endsWith slash s).
Proof.
  unfold removeTrailingSlash.
  destruct s as [|c s _] using rev_ind.
  - right. split; [done|]. unfold endsWith. simpl. discriminate.
  - rewrite rev_app_distr. simpl.
    destruct (N.eqb_spec c 0x2F) as [->|Hc].
    + left. by rewrite rev_involutive.
    + right. split; [done|]. unfold endsWith. rewrite last_snoc.
      intros [= ->]. by apply Hc.
Qed.

Lemma no_double_slash b pre :
  ~ endsWith slash b -> b ++ js "/chat" <> pre ++ js "//chat".
Proof.
  intros Hb E. apply Hb.
  change (js "//chat") with ([slash] ++ js "/chat") in E.
  rewrite app_assoc in E. apply app_inv_tail in E. subst b.
  apply endsWith_snoc.
Qed.

End ChatUrl.

(** C10. When the effective [baseUrl] is not empty (and with it the
    effective [apiKey] and the prompt, so that a request is sent), the
    address of the request is [b ++ "/chat"], where [b] is the effective
    [baseUrl] without one final ['/'] if it has one, and the effective
    [baseUrl] itself if it has none.  A [baseUrl] that ends in exactly one
    ['/'] gives an address with no ["//chat"] at its end. *)
Theorem chat_url_strips_one_slash rawText env st :
  promptOf rawText st <> [] ->
  effectiveApiKey st <> [] ->
  effectiveBaseUrl st <> [] ->
  exists req b,
    (handleSend rawText env st).2 = [req]
    /\ FetchRequest.url req = b ++ js "/chat"
    /\ (effectiveBaseUrl st = b ++ [slash]
        \/ (effectiveBaseUrl st = b /\ ~ endsWith slash b))
    /\ (forall b0, effectiveBaseUrl st = b0 ++ [slash] ->
        ~ endsWith slash b0 ->
        FetchRequest.url req = b0 ++ js "/chat"
        /\ forall pre, FetchRequest.url req <> pre ++ js "//chat").
Proof.
  intros Hne Hk Hb.
  destruct (handleSend_nonempty rawText env st Hne) as (p & Hp & Hsend).
  destruct (prepare_nonempty rawText (userUUID env) (userNow env) st Hne)
    as (p' & Hp' & _ & _ & _ & _ & Hk' & Hb' & _).
  assert (p' = p) as -> by congruence.
  assert (configured p = true) as Hc.
  { apply configured_iff. by rewrite Hk', Hb'. }
  rewrite Hc in Hsend.
  exists (chatRequest p), (removeTrailingSlash (effectiveBaseUrl st)).
  split; [by rewrite Hsend|]. simpl. rewrite Hb'.
  split; [done|]. split.
  - destruct (removeTrailingSlash_spec (effectiveBaseUrl st)) as [H|[H1 H2]].
    + by left.
    + right. by rewrite <- H1.
  - intros b0 E Hb0.
    assert (removeTrailingSlash (effectiveBaseUrl st) = b0) as ->.
    { destruct (removeTrailingSlash_spec (effectiveBaseUrl st)) as [H|[_ H]].
      - rewrite E in H at 1. by apply app_inv_tail in H.
      - exfalso. apply H. rewrite E. apply endsWith_snoc. }
    split; [done|]. intros pre. by apply no_double_slash.
Qed.

(** Settings [baseUrl: "https://x/"]: the request goes to
    ["https://x/chat"]. *)
Lemma chat_url_strips_one_slash_witness :
  exists req,
    (handleSend None (Sample.env Sample.replyHi) Sample.busyState).2 = [req]
    /\ FetchRequest.url req = js "https://x/chat".
Proof.
  destruct (chat_url_strips_one_slash None (Sample.env Sample.replyHi)
              Sample.busyState) as (req & b & Hio & _ & _ & Hone);
    [vm_compute; discriminate ..|].
  exists req. split; [exact Hio|].
  apply (Hone (js "https://x")); [reflexivity|].
  vm_compute. discriminate.
Defined.

(** ** The reply of the endpoint *)

(** The reading of a parsed body: the first of [reply], [message] that is
    truthy, or else the placeholder. *)
Lemma contentOfOutcome_parsed status data :
  contentOfOutcome (FetchResponse true status (JsonParsed data))
  = if truthy (optProp data (js "reply")) then optProp data (js "reply")
    else if truthy (optProp data (js "message"))
         then optProp data (js "message")
         else VString placeholderText.
Proof.
  cbn [contentOfOutcome negb]. unfold JS.or.
  destruct (truthy (optProp data (js "reply"))) eqn:Hr; [by rewrite Hr|].
  by destruct (truthy (optProp data (js "message"))).
Qed.

(** Where the two readings agree: on a body whose [reply] is truthy. *)
Lemma replyAsSpecified_truthy_reply data :
  truthy (optProp data (js "reply")) = true ->
  replyAsSpecified data = optProp data (js "reply").
Proof.
  destruct data as [| | | | | |props]; simpl; try discriminate.
  by destruct (lookupProp (js "reply") props).
Qed.

(** C5, as stated, fails: the body [{"reply": "", "message": "hi"}] has a
    [reply] field, and the assistant message says ["hi"], not [""]. *)
Lemma empty_reply_is_skipped :
  let result :=
    handleSend (Some (js "hello")) (Sample.env Sample.emptyReply)
      (initialState Sample.configuredSettings) in
  lookupProp (js "reply")
    [(js "reply", VString (js "")); (js "message", VString (js "hi"))]
  = Some (VString (js ""))
  /\ ChatMessage.content <$> last (messages result.1)
     = Some (VString (js "hi"))
  /\ ChatMessage.content <$> last (messages result.1)
     <> Some (replyAsSpecified Sample.emptyReplyBody).
Proof.
  split; [reflexivity|]. split; [vm_compute; reflexivity|].
  vm_compute. discriminate.
Qed.

(** C5, amended. After a response with [ok] set whose body parses to
    [data], the appended assistant message has as content [data.reply] when
    that is truthy, otherwise [data.message] when that is truthy, otherwise
    the placeholder [placeholderText]; a field that is absent reads as [undefined], which is
    not truthy, and so do the fields of a body that is no object. *)
Theorem reply_of_successful_response rawText env st req status data :
  (handleSend rawText env st).2 = [req] ->
  fetch env req = FetchResponse true status (JsonParsed data) ->
  exists a earlier,
    messages (handleSend rawText env st).1 = earlier ++ [a]
    /\ ChatMessage.role a = assistant
    /\ ChatMessage.content a
       = if truthy (optProp data (js "reply")) then optProp data (js "reply")
         else if truthy (optProp data (js "message"))
              then optProp data (js "message")
              else VString placeholderText.
Proof.
  intros Hio Hfetch.
  assert (req ∈ (handleSend rawText env st).2) as Hin
    by (rewrite Hio; apply list_elem_of_here).
  apply handleSend_requests in Hin as (p & Hp & Hc & ->).
  destruct (handleSend_nonempty rawText env st
              (prepare_Some_nonempty _ _ _ _ _ Hp)) as (p' & Hp' & ->).
  assert (p' = p) as -> by congruence.
  rewrite Hc, Hfetch. cbn [fst].
  destruct (afterAssistantMessage_messages p
              (contentOfOutcome
                 (FetchResponse true status (JsonParsed data)))
              (assistantUUID env) (assistantNow env) (afterUserMessage p st))
    as (a & Ha & _ & Hrole & Hcontent & _).
  exists a, (messages (afterUserMessage p st)).
  split; [exact Ha|]. split; [exact Hrole|].
  etrans; [exact Hcontent|]. exact (contentOfOutcome_parsed status data).
Qed.

(** The scenario of the specification: the endpoint answers
    [{"reply": "hi"}]. *)
Lemma reply_of_successful_response_witness :
  exists a earlier,
    messages (handleSend (Some (js "hello")) (Sample.env Sample.replyHi)
                (initialState Sample.configuredSettings)).1 = earlier ++ [a]
    /\ ChatMessage.role a = assistant
    /\ ChatMessage.content a = VString (js "hi").
Proof.
  edestruct (reply_of_successful_response (Some (js "hello"))
               (Sample.env Sample.replyHi)
               (initialState Sample.configuredSettings))
    as (a & earlier & Hmessages & Hrole & Hcontent).
  - vm_compute. reflexivity.
  - reflexivity.
  - exists a, earlier. split; [exact Hmessages|]. split; [exact Hrole|].
    etrans; [exact Hcontent|]. vm_compute. reflexivity.
Defined.

(** ** The selection tooltip *)

Section TooltipAction.

Lemma trimStart_nil s :
  trimStart s = [] -> Forall (fun c => isWhiteSpace c = true) s.
Proof.
  induction s as [|c r IH]; simpl; [constructor|].
  destruct (isWhiteSpace c) eqn:Hc; [|discriminate].
  intros H. constructor; [done|by apply IH].
Qed.

Lemma trim_nonempty s : s <> [] -> noLeadingSpace s -> trim s <> [].
Proof.
  intros Hne Hs Htrim. unfold trim, trimEnd in Htrim.
  rewrite (trimStart_fixed s Hs) in Htrim.
  apply (f_equal (@rev N)) in Htrim. rewrite rev_involutive in Htrim.
  simpl in Htrim. apply trimStart_nil in Htrim.
  destruct s as [|c r]; [done|]. simpl in Hs.
  rewrite Forall_forall in Htrim.
  specialize (Htrim c). rewrite Hs in Htrim.
  assert (false = true)
    by (apply Htrim; apply list_elem_of_In, (proj1 (in_rev _ _));
        by left).
  discriminate.
Qed.

Lemma handleSend_messages rawText env st :
  promptOf rawText st <> [] ->
  exists u a,
    messages (handleSend rawText env st).1 = messages st ++ [u; a]
    /\ ChatMessage.role u = user
    /\ ChatMessage.content u = VString (promptOf rawText st)
    /\ ChatMessage.role a = assistant.
Proof.
  intros Hne.
  destruct (handleSend_nonempty rawText env st Hne) as (p & Hp & ->).
  destruct (prepare_nonempty rawText (userUUID env) (userNow env) st Hne)
    as (p' & Hp' & _ & Hrole & Hcontent & _).
  assert (p' = p) as -> by congruence.
  destruct (configured p); cbn [fst];
    match goal with
    | |- context [afterAssistantMessage p ?c ?i ?n ?s] =>
        destruct (afterAssistantMessage_messages p c i n s)
          as (a & Ha & _ & Hr & _)
    end;
    exists (userMessage p), a;
    rewrite Ha, afterUserMessage_messages, <- app_assoc;
    repeat split; assumption.
Qed.

Lemma translate_prefix_noLeadingSpace :
  translateTemplate ++ lineFeed <> []
  /\ noLeadingSpace (translateTemplate ++ lineFeed).
Proof. split; [vm_compute; discriminate|vm_compute; reflexivity]. Qed.

(** A tooltip is shown only with a text that is trimmed and not empty. *)
Lemma handleSelection_tooltip selection st t :
  tooltip (handleSelection selection st) = Some t ->
  Tooltip.text t <> [] /\ trim (Tooltip.text t) = Tooltip.text t.
Proof.
  unfold handleSelection. destruct selection as [sel|]; [|discriminate].
  destruct (isCollapsed sel || (rangeCount sel =? 0)%N); [discriminate|].
  case_bool_decide as Htext; [discriminate|].
  intros [= <-]. simpl. split; [done|apply trim_idempotent].
Qed.

End TooltipAction.

(** C7. With the tooltip visible and holding the selected text [T], the
    translate action calls [handleSend] with the translation template, a
    line feed and the trimmed [T]; the tooltip is hidden and the sidebar is
    open afterwards.  The user message that is appended carries the trimmed
    prompt, which is the prompt itself unless [T] is white space only. *)
Theorem translate_action env st t :
  tooltip st = Some t ->
  Tooltip.text t <> [] ->
  let prompt := translateTemplate ++ lineFeed ++ trim (Tooltip.text t) in
  let result := onTooltipAction translate env st in
  result
  = handleSend (Some prompt) env (setTooltip None (setSidebarOpen true st))
  /\ tooltip result.1 = None
  /\ sidebarOpen result.1 = true
  /\ (exists u a,
       messages result.1 = messages st ++ [u; a]
       /\ ChatMessage.role u = user
       /\ ChatMessage.content u = VString (trim prompt))
  /\ (trim (Tooltip.text t) <> [] -> trim prompt = prompt).
Proof.
  intros Htip Htext prompt result.
  assert (result
          = handleSend (Some prompt) env
              (setTooltip None (setSidebarOpen true st))) as Hres.
  { unfold result, onTooltipAction. rewrite Htip.
    by rewrite bool_decide_eq_false_2. }
  destruct translate_prefix_noLeadingSpace as [Hne Hlead].
  split; [exact Hres|]. rewrite Hres. split; [|split; [|split]].
  - by rewrite handleSend_tooltip.
  - by apply handleSend_sidebarOpen.
  - destruct (handleSend_messages (Some prompt) env
                (setTooltip None (setSidebarOpen true st)))
      as (u & a & Hm & Hu & Hc & _).
    + unfold promptOf. cbn [default]. unfold prompt. rewrite app_assoc.
      apply trim_nonempty.
      * intros E. apply app_eq_nil in E as [E _]. by apply Hne.
      * by apply noLeadingSpace_app.
    + exists u, a. split; [exact Hm|]. split; [exact Hu|exact Hc].
  - intros Hbase. unfold prompt. rewrite app_assoc.
    by apply trim_app_trimmed.
Qed.

Lemma translate_action_witness :
  let st := setTooltip (Some Sample.selectedTooltip) Sample.busyState in
  let result := onTooltipAction translate (Sample.env Sample.replyHi) st in
  tooltip result.1 = None
  /\ sidebarOpen result.1 = true
  /\ exists u a,
      messages result.1 = messages st ++ [u; a]
      /\ ChatMessage.content u
         = VString (translateTemplate ++ lineFeed ++ js "good morning").
Proof.
  intros st result.
  destruct (translate_action (Sample.env Sample.replyHi) st
              Sample.selectedTooltip)
    as (_ & Htip & Hopen & (u & a & Hm & _ & Hc) & _).
  - reflexivity.
  - vm_compute. discriminate.
  - split; [exact Htip|]. split; [exact Hopen|].
    exists u, a. split; [exact Hm|].
    etrans; [exact Hc|]. vm_compute. reflexivity.
Defined.

(** ** Attachments *)

Section Attachments.

Context {A : Type} (P : A -> Prop) `{!forall x, Decision (P x)}.

(** [filter] keeps every sublist whose members pass the test. *)
Lemma sublist_into_filter (k l : list A) :
  k `sublist_of` l -> Forall P k -> k `sublist_of` filter P l.
Proof.
  induction 1 as [|x k l Hkl IH|x k l Hkl IH]; intros HP.
  - constructor.
  - apply Forall_cons in HP as [Hx HP].
    rewrite filter_cons_True by done. constructor. by apply IH.
  - rewrite filter_cons. destruct (decide (P x)).
    + apply sublist_cons. by apply IH.
    + by apply IH.
Qed.

End Attachments.

(** C8. [removeAttachment(id)] leaves the attachments whose [id] is not the
    given one, in the order they had: the new list is a sublist of the old
    one, its members are the old members with another [id], and it contains
    every sublist of the old list that has no entry with the given [id].
    No other cell of the component changes. *)
Theorem removeAttachment_removes_by_id (id : JSString) (st : State) :
  let old := attachments st in
  let new := attachments (removeAttachment id st) in
  new `sublist_of` old
  /\ (forall item, item ∈ new <-> item ∈ old /\ Attachment.id item <> id)
  /\ (forall kept,
        kept `sublist_of` old ->
        Forall (fun item => Attachment.id item <> id) kept ->
        kept `sublist_of` new)
  /\ removeAttachment id st = setAttachments (fun _ => new) st.
Proof.
  cbn zeta. unfold removeAttachment. cbn [attachments setAttachments].
  split; [apply sublist_filter|]. split; [|split].
  - intros item. rewrite list_elem_of_filter. tauto.
  - intros kept Hsub Hkept. by apply sublist_into_filter.
  - reflexivity.
Qed.

(** ** Worked examples *)

Example update_apiKey_only :
  (get (update {| apiKey_opt := Some (js "k"); baseUrl_opt := None;
                  includeContextByDefault_opt := None |}
          (Some Sample.configuredSettings))).1
  = Sample.configuredSettings.
Proof. reflexivity. Qed.

Example update_on_fresh_store :
  (get (update {| apiKey_opt := None; baseUrl_opt := Some (js "https://y");
                  includeContextByDefault_opt := Some false |} None)).1
  = {| apiKey := js ""; baseUrl := js "https://y";
       includeContextByDefault := false |}.
Proof. reflexivity. Qed.

Example reset_configured_store :
  (get (reset (Some Sample.configuredSettings))).1 = defaultSettings.
Proof. reflexivity. Qed.

Example removeAttachment_keeps_order :
  attachments
    (removeAttachment (js "b")
       (setAttachments
          (fun _ => [Sample.attachment "a" "1.png"; Sample.attachment "b" "2.png";
                     Sample.attachment "c" "3.png"; Sample.attachment "b" "4.png"])
          (initialState defaultSettings)))
  = [Sample.attachment "a" "1.png"; Sample.attachment "c" "3.png"].
Proof. vm_compute. reflexivity. Qed.

Example double_slash_kept :
  removeTrailingSlash (js "https://x//") ++ js "/chat" = js "https://x//chat".
Proof. vm_compute. reflexivity. Qed.

Example http_error_content :
  contentOfOutcome (FetchResponse false 404%N (JsonThrows (js "")))
  = VString (requestFailedPrefix ++ js "HTTP 404").
Proof. vm_compute. reflexivity. Qed.

(** * Further properties *)

(** ** [clampText] *)

Section ClampText.

Implicit Types (s l : JSString) (c : N).

Lemma trimEnd_prefix s : exists post, s = trimEnd s ++ post.
Proof.
  unfold trimEnd. destruct (trimStart_suffix (rev s)) as [pre Hpre].
  exists (rev pre). rewrite <- rev_app_distr, <- Hpre.
  by rewrite rev_involutive.
Qed.

Lemma trimEnd_snoc l c :
  trimEnd (l ++ [c]) = if isWhiteSpace c then trimEnd l else l ++ [c].
Proof.
  unfold trimEnd. rewrite rev_app_distr. simpl.
  destruct (isWhiteSpace c); [done|].
  simpl. by rewrite rev_involutive.
Qed.

Lemma trimStart_blank s : blank s -> trimStart s = [].
Proof.
  induction 1 as [|c r Hc _ IH]; simpl; [done|]. by rewrite Hc.
Qed.

Lemma trim_nil_iff s : trim s = [] <-> blank s.
Proof.
  split.
  - intros H. unfold trim, trimEnd in H.
    apply (f_equal (@rev N)) in H. rewrite rev_involutive in H. simpl in H.
    apply trimStart_nil in H.
    assert (blank (trimStart s)) as Hb.
    { unfold blank. rewrite Forall_forall in *. intros c Hc. apply H.
      by apply list_elem_of_In, (proj1 (in_rev _ _)), list_elem_of_In. }
    pose proof (trimStart_noLeadingSpace s) as Hl.
    destruct (trimStart s) as [|c r] eqn:E.
    + by apply trimStart_nil.
    + simpl in Hl. apply Forall_cons in Hb as [Hc _]. congruence.
  - intros H. unfold trim. by rewrite trimStart_blank.
Qed.

Lemma noLeadingSpace_take n s : noLeadingSpace s -> noLeadingSpace (take n s).
Proof. destruct n, s; simpl; done. Qed.

Lemma plainSpaces_app l1 l2 :
  plainSpaces (l1 ++ l2) <-> plainSpaces l1 /\ plainSpaces l2.
Proof. apply Forall_app. Qed.

Lemma singleSpaced_app l1 l2 :
  singleSpaced (l1 ++ l2) -> singleSpaced l1 /\ singleSpaced l2.
Proof.
  induction l1 as [|c r IH]; simpl; [done|].
  intros [Hc Hr]. destruct (IH Hr) as [H1 H2]. split; [|done].
  split; [|done]. destruct r; [done|]. exact Hc.
Qed.

Lemma singleSpaced_cons c l :
  isWhiteSpace c = false \/ noLeadingSpace l ->
  singleSpaced l -> singleSpaced (c :: l).
Proof.
  intros H Hl. simpl. split; [|done]. destruct l as [|d l']; [done|].
  destruct H as [-> | Hd]; [done|]. simpl in Hd. rewrite Hd.
  apply andb_false_r.
Qed.

Lemma collapseFrom_blank inRun s : blank (collapseFrom inRun s) <-> blank s.
Proof.
  unfold blank. revert inRun.
  induction s as [|c r IH]; intros inRun; simpl; [done|].
  destruct (isWhiteSpace c) eqn:Hc.
  - destruct inRun; rewrite ?Forall_cons, IH; intuition.
  - rewrite !Forall_cons, IH. done.
Qed.

Lemma collapseFrom_plainSpaces inRun s : plainSpaces (collapseFrom inRun s).
Proof.
  unfold plainSpaces. revert inRun.
  induction s as [|c r IH]; intros inRun; simpl; [constructor|].
  destruct (isWhiteSpace c) eqn:Hc.
  - destruct inRun; [apply IH|]. constructor; [done|apply IH].
  - constructor; [congruence|apply IH].
Qed.

Lemma collapseFrom_inRun s : noLeadingSpace (collapseFrom true s).
Proof.
  induction s as [|c r IH]; simpl; [done|].
  destruct (isWhiteSpace c) eqn:Hc; [done|]. simpl. done.
Qed.

Lemma collapseFrom_singleSpaced inRun s : singleSpaced (collapseFrom inRun s).
Proof.
  revert inRun. induction s as [|c r IH]; intros inRun; simpl; [done|].
  destruct (isWhiteSpace c) eqn:Hc.
  - destruct inRun; [apply IH|].
    apply singleSpaced_cons; [right; apply collapseFrom_inRun|apply IH].
  - apply singleSpaced_cons; [by left|apply IH].
Qed.

(** A string in which white space is single spaces is left as it is. *)
Lemma collapseFrom_fixed s :
  plainSpaces s -> singleSpaced s ->
  collapseFrom false s = s /\ (noLeadingSpace s -> collapseFrom true s = s).
Proof.
  induction s as [|c r IH]; [done|].
  intros [Hc Hr]%Forall_cons Hs.
  destruct (singleSpaced_app [c] r Hs) as [_ Hsr].
  destruct (IH Hr Hsr) as [IH1 IH2]. simpl.
  destruct (isWhiteSpace c) eqn:Ec.
  - split; [|simpl; congruence].
    assert (c = 0x20%N) as -> by auto. f_equal. apply IH2.
    destruct r as [|d r']; [done|]. simpl. destruct Hs as [Hcd _].
    rewrite Ec in Hcd. exact Hcd.
  - by rewrite IH1.
Qed.

(** The text between the trimming and the cut of [clampText]. *)
Lemma collapsed_trim_shape s :
  let t := trim (collapseWhiteSpace s) in
  plainSpaces t /\ singleSpaced t /\ noLeadingSpace t
  /\ noLeadingSpace (rev t).
Proof.
  cbn zeta. unfold trim, collapseWhiteSpace.
  set (k := collapseFrom false s).
  destruct (trimStart_suffix k) as [pre Hpre].
  destruct (trimEnd_prefix (trimStart k)) as [post Hpost].
  pose proof (collapseFrom_plainSpaces false s) as Hp.
  pose proof (collapseFrom_singleSpaced false s) as Hs.
  fold k in Hp, Hs. rewrite Hpre in Hp, Hs.
  apply plainSpaces_app in Hp as [_ Hp].
  apply singleSpaced_app in Hs as [_ Hs].
  rewrite Hpost in Hp, Hs.
  apply plainSpaces_app in Hp as [Hp _].
  apply singleSpaced_app in Hs as [Hs _].
  split; [done|]. split; [done|]. split.
  - apply (trim_noLeadingSpace k).
  - apply (trim_noLeadingSpace_rev k).
Qed.

Lemma trimEnd_fixed s : noLeadingSpace (rev s) -> trimEnd s = s.
Proof.
  intros H. unfold trimEnd. rewrite trimStart_fixed by done.
  apply rev_involutive.
Qed.

(** Cutting a collapsed text leaves at most one space at its end. *)
Lemma trimEnd_take_singleSpaced n m t :
  singleSpaced t -> noLeadingSpace (rev t) -> n < m ->
  take n (trimEnd (take m t)) = take n t.
Proof.
  intros Hs Hend Hnm.
  destruct (decide (length t <= m)) as [Hle|Hgt].
  { rewrite (take_ge t m) by done. by rewrite trimEnd_fixed. }
  assert (take n t = take n (take m t)) as ->
    by (rewrite take_take; f_equal; lia).
  assert (length (take m t) = m) as Hlen by (rewrite length_take; lia).
  assert (singleSpaced (take m t)) as Hsm.
  { rewrite <- (take_drop m t) in Hs. by apply singleSpaced_app in Hs as [? _]. }
  destruct (take m t) as [|x l _] using rev_ind; [simpl in Hlen; lia|].
  rewrite length_app in Hlen. simpl in Hlen.
  rewrite trimEnd_snoc. destruct (isWhiteSpace x) eqn:Hx; [|done].
  rewrite (take_app_le l [x]) by lia. f_equal.
  destruct l as [|y l' _] using rev_ind; [done|].
  rewrite trimEnd_snoc.
  rewrite <- app_assoc in Hsm. apply singleSpaced_app in Hsm as [_ Hyx].
  simpl in Hyx. destruct Hyx as [Hyx _]. rewrite Hx, andb_true_r in Hyx.
  by rewrite Hyx.
Qed.

Lemma clampText_reclamp_lt value n m :
  n < m -> clampText (clampText value m) n = clampText value n.
Proof.
  intros Hnm. unfold clampText at 1 2.
  destruct (collapsed_trim_shape value) as (Hp & Hs & Hl & Hr).
  set (t := trim (collapseWhiteSpace value)) in *.
  assert (collapseWhiteSpace (take m t) = take m t) as ->.
  { apply collapseFrom_fixed.
    - by apply Forall_take.
    - rewrite <- (take_drop m t) in Hs.
      by apply singleSpaced_app in Hs as [? _]. }
  unfold trim. rewrite (trimStart_fixed (take m t))
    by by apply noLeadingSpace_take.
  by apply trimEnd_take_singleSpaced.
Qed.

Lemma clampText_length value limit : length (clampText value limit) <= limit.
Proof. unfold clampText. rewrite length_take. lia. Qed.

End ClampText.

(** X1. The result of [clampText] has at most [limit] code units, does not
    begin with white space, contains no white space but the space, and has
    no two spaces next to each other. *)
Theorem clampText_shape (value : JSString) (limit : nat) :
  length (clampText value limit) <= limit
  /\ noLeadingSpace (clampText value limit)
  /\ plainSpaces (clampText value limit)
  /\ singleSpaced (clampText value limit).
Proof.
  destruct (collapsed_trim_shape value) as (Hp & Hs & Hl & _).
  unfold clampText. split; [rewrite length_take; lia|].
  split; [by apply noLeadingSpace_take|].
  split; [by apply Forall_take|].
  rewrite <- (take_drop limit (trim (collapseWhiteSpace value))) in Hs.
  by apply singleSpaced_app in Hs as [? _].
Qed.

(** X2. Clamping a clamped text to a smaller limit gives what clamping the
    original to that limit gives.  Clamping it again to the same limit
    removes the space that the cut may have left at the end, and nothing
    else. *)
Theorem clampText_twice (value : JSString) (n m : nat) :
  (n < m -> clampText (clampText value m) n = clampText value n)
  /\ clampText (clampText value n) n = trimEnd (clampText value n).
Proof.
  split; [apply clampText_reclamp_lt|].
  unfold clampText.
  destruct (collapsed_trim_shape value) as (Hp & Hs & Hl & _).
  set (t := trim (collapseWhiteSpace value)) in *.
  assert (collapseWhiteSpace (take n t) = take n t) as ->.
  { apply collapseFrom_fixed.
    - by apply Forall_take.
    - rewrite <- (take_drop n t) in Hs.
      by apply singleSpaced_app in Hs as [? _]. }
  unfold trim. rewrite (trimStart_fixed (take n t))
    by by apply noLeadingSpace_take.
  apply take_ge.
  destruct (trimEnd_prefix (take n t)) as [post Hpost].
  assert (length (take n t) <= n) as Hlen by (rewrite length_take; lia).
  apply (f_equal length) in Hpost. rewrite length_app in Hpost. lia.
Qed.

Example clampText_cut_leaves_space :
  clampText (js "ab   cd") 3 = js "ab "
  /\ clampText (clampText (js "ab   cd") 3) 3 = js "ab".
Proof. split; vm_compute; reflexivity. Qed.

(** X3. [clampText] gives the empty string exactly when the limit is 0 or
    the text is white space only (the empty text included). *)
Theorem clampText_empty_iff (value : JSString) (limit : nat) :
  clampText value limit = [] <-> limit = 0 \/ blank value.
Proof.
  unfold clampText, collapseWhiteSpace. split.
  - intros [->|H]%take_nil_inv; [by left|right].
    by apply trim_nil_iff, collapseFrom_blank in H.
  - intros [->|H]; [apply take_0|].
    apply (collapseFrom_blank false), trim_nil_iff in H.
    rewrite H. apply take_nil.
Qed.

(** ** The extraction of the page *)

Section Extraction.

Lemma orString_nonempty_r a b : b <> [] -> orString a b <> [].
Proof. unfold orString. by case_bool_decide. Qed.

Lemma defaultTitle_nonempty : defaultTitle <> [].
Proof. vm_compute. discriminate. Qed.

Lemma clampLimit_gt_500 : 500 < clampLimit.
Proof. unfold clampLimit. lia. Qed.

End Extraction.

(** X4. The callback of the timer always sets a page context, also when the
    extraction throws.  Its title is never empty, its address is the
    address of the page and its preview has at most 1200 code units.  After
    an extraction that returns, the preview is the clamped text; after one
    that throws, text and preview are both the clamped visible text of the
    page. *)
Theorem extractPageContext_sets_context
    (outcome : Extraction) (page : Page) (st : State) :
  exists pc,
    pageContext (extractPageContext outcome page st) = Some pc
    /\ PageContext.title pc <> []
    /\ PageContext.url pc = href page
    /\ length (PageContext.preview pc) <= 1200
    /\ match outcome with
       | Parsed _ =>
           PageContext.preview pc = clampText (PageContext.text pc) 1200
       | ExtractionThrows =>
           PageContext.text pc = clampText (innerText page) 1200
           /\ PageContext.preview pc = PageContext.text pc
       end.
Proof.
  destruct outcome as [parsed|]; cbn [extractPageContext].
  - exists (buildReadableContext parsed page). split; [reflexivity|].
    unfold buildReadableContext. cbn [PageContext.title PageContext.url
      PageContext.preview PageContext.text].
    split; [apply orString_nonempty_r, defaultTitle_nonempty|].
    split; [reflexivity|]. split; [|reflexivity].
    apply clampText_length.
  - eexists. split; [reflexivity|].
    cbn [PageContext.title PageContext.url PageContext.preview
         PageContext.text].
    split; [apply orString_nonempty_r, defaultTitle_nonempty|].
    split; [reflexivity|].
    assert (orString (innerText page) (js "") = innerText page) as ->.
    { unfold orString. by case_bool_decide. }
    split; [apply clampText_length|]. by split.
Qed.

Lemma extractPageContext_bounds outcome page st :
  exists pc,
    pageContext (extractPageContext outcome page st) = Some pc
    /\ PageContext.title pc <> []
    /\ length (PageContext.preview pc) <= clampLimit
    /\ clampText (PageContext.preview pc) 500
       = clampText
           match outcome with
           | Parsed _ => PageContext.text pc
           | ExtractionThrows => innerText page
           end 500.
Proof.
  destruct outcome as [parsed|]; cbn [extractPageContext];
    eexists; (split; [reflexivity|]);
    cbn [PageContext.title PageContext.preview PageContext.text].
  - split; [apply orString_nonempty_r, defaultTitle_nonempty|].
    split; [apply clampText_length|].
    apply clampText_reclamp_lt, clampLimit_gt_500.
  - split; [apply orString_nonempty_r, defaultTitle_nonempty|].
    split; [apply clampText_length|].
    assert (orString (innerText page) (js "") = innerText page) as ->.
    { unfold orString. by case_bool_decide. }
    apply clampText_reclamp_lt, clampLimit_gt_500.
Qed.

Lemma extractPageContext_includeContext outcome page st :
  includeContext (extractPageContext outcome page st) = includeContext st.
Proof. by destruct outcome. Qed.

(** X5. The preview line shown under the input box is absent exactly when
    the context is switched off or not yet extracted.  After the
    extraction it is the title, the address and the text of the page
    clamped to 500 code units, each on a line of its own: the second
    clamping of the preview, to 500, loses nothing against clamping the
    text itself. *)
Theorem contextPreview_after_extraction
    (outcome : Extraction) (page : Page) (st : State) :
  (contextPreview st = None
   <-> includeContext st = false \/ pageContext st = None)
  /\ (includeContext st = true ->
      exists pc,
        pageContext (extractPageContext outcome page st) = Some pc
        /\ contextPreview (extractPageContext outcome page st)
           = Some (PageContext.title pc ++ lineFeed ++ PageContext.url pc
                   ++ lineFeed
                   ++ clampText
                        match outcome with
                        | Parsed _ => PageContext.text pc
                        | ExtractionThrows => innerText page
                        end 500)).
Proof.
  split.
  - unfold contextPreview.
    destruct (includeContext st), (pageContext st); cbn [negb];
      intuition congruence.
  - intros Hinc.
    destruct (extractPageContext_bounds outcome page st)
      as (pc & Hpc & _ & _ & Hclamp).
    exists pc. split; [exact Hpc|].
    unfold contextPreview.
    rewrite extractPageContext_includeContext, Hinc, Hpc. cbn [negb].
    by rewrite Hclamp.
Qed.

Lemma contextPreview_after_extraction_witness :
  contextPreview
    (extractPageContext (Parsed (Some Sample.article)) Sample.page
       (initialState Sample.configuredSettings))
  = Some (defaultTitle ++ lineFeed ++ js "https://example.org/a"
          ++ lineFeed ++ js "Hello, world").
Proof.
  destruct (contextPreview_after_extraction
              (Parsed (Some Sample.article)) Sample.page
              (initialState Sample.configuredSettings))
    as [_ Hprev].
  destruct Hprev as (pc & Hpc & Hprev); [reflexivity|].
  etrans; [exact Hprev|].
  assert (pc = buildReadableContext (Some Sample.article) Sample.page)
    as -> by (cbn [extractPageContext setPageContext pageContext] in Hpc;
              congruence).
  vm_compute. reflexivity.
Defined.

(** ** More on [handleSend] *)

Section HandleSendMore.

Implicit Types (st : State) (env : Env) (rawText : option JSString).

Lemma handleSend_sameOutside rawText env st :
  sameOutsideSend st (handleSend rawText env st).1.
Proof.
  unfold handleSend. destruct (prepare _ _ _ _) as [p|].
  - destruct (configured p); cbn [fst]; repeat split.
  - repeat split.
Qed.

Lemma handleSend_cells rawText env st :
  promptOf rawText st <> [] ->
  input (handleSend rawText env st).1 = []
  /\ isSending (handleSend rawText env st).1 = false
  /\ sidebarOpen (handleSend rawText env st).1 = true.
Proof.
  intros Hne.
  destruct (handleSend_nonempty rawText env st Hne) as (p & _ & ->).
  destruct (configured p); cbn [fst]; repeat split.
Qed.

(** The context part of what [prepare] computes. *)
Lemma prepare_context rawText uuid now st p :
  prepare rawText uuid now st = Some p ->
  ChatMessage.usingContext (userMessage p)
  = includeContext st && bool_decide (is_Some (pageContext st))
  /\ bool_decide (is_Some (contextPayload p))
     = includeContext st && bool_decide (is_Some (pageContext st))
  /\ Payload.context (payload p) = contextPayload p
  /\ match contextPayload p with
     | None => includeContext st = false \/ pageContext st = None
     | Some c =>
         includeContext st = true
         /\ exists pc,
              pageContext st = Some pc
              /\ ContextPayload.title c = PageContext.title pc
              /\ ContextPayload.url c = PageContext.url pc
              /\ ContextPayload.text c = PageContext.text pc
              /\ ContextPayload.preview c = PageContext.preview pc
              /\ ContextPayload.attachments c
                 = map (fun file =>
                          {| AttachmentRef.name := Attachment.name file;
                             AttachmentRef.dataUrl := Attachment.dataUrl file |})
                       (attachments st)
     end.
Proof.
  unfold prepare. case_bool_decide; [done|]. intros [= <-].
  cbn [userMessage contextPayload payload ChatMessage.usingContext
       Payload.context].
  destruct (includeContext st), (pageContext st) as [pc|]; cbn.
  - repeat split; eauto 10.
  - repeat split; eauto.
  - repeat split; eauto.
  - repeat split; eauto.
Qed.

End HandleSendMore.

(** X6. [handleSend] writes four cells only: [messages], [input],
    [isSending] and [sidebarOpen].  The settings, the page context, the
    context switch, the tooltip, the attachments, the inline fields and the
    reference cell with the history are as before; the reference cell
    follows [messages] only by the effect, after the render.  A call that
    sends leaves the input box empty, [isSending] off and the sidebar open,
    also when the request failed. *)
Theorem handleSend_cells_after rawText env st :
  sameOutsideSend st (handleSend rawText env st).1
  /\ (promptOf rawText st <> [] ->
      input (handleSend rawText env st).1 = []
      /\ isSending (handleSend rawText env st).1 = false
      /\ sidebarOpen (handleSend rawText env st).1 = true).
Proof.
  split; [apply handleSend_sameOutside|apply handleSend_cells].
Qed.

Lemma handleSend_pair rawText env st :
  promptOf rawText st <> [] ->
  exists p a,
    prepare rawText (userUUID env) (userNow env) st = Some p
    /\ messages (handleSend rawText env st).1
       = messages st ++ [userMessage p; a]
    /\ ChatMessage.id a = assistantUUID env
    /\ ChatMessage.role a = assistant
    /\ ChatMessage.createdAt a = assistantNow env
    /\ ChatMessage.usingContext a = bool_decide (is_Some (contextPayload p))
    /\ ChatMessage.content a
       = if configured p then contentOfOutcome (fetch env (chatRequest p))
         else VString notConfiguredText.
Proof.
  intros Hne.
  destruct (handleSend_nonempty rawText env st Hne) as (p & Hp & ->).
  exists p. destruct (configured p); eexists;
    (split; [exact Hp|]); cbn [fst];
    (split; [cbn [afterAssistantMessage afterUserMessage messages
                  setIsSending setMessages setInput setSidebarOpen];
             by rewrite <- app_assoc|]);
    repeat split.
Qed.

(** X7. The two messages of one call carry the same [usingContext] flag:
    it is set exactly when the context is switched on and the page context
    has been extracted.  The user message carries the first identifier and
    time stamp that the call draws, the assistant message the second. *)
Theorem handleSend_context_flags rawText env st :
  promptOf rawText st <> [] ->
  exists u a,
    messages (handleSend rawText env st).1 = messages st ++ [u; a]
    /\ ChatMessage.usingContext u
       = includeContext st && bool_decide (is_Some (pageContext st))
    /\ ChatMessage.usingContext a = ChatMessage.usingContext u
    /\ ChatMessage.id u = userUUID env
    /\ ChatMessage.createdAt u = userNow env
    /\ ChatMessage.id a = assistantUUID env
    /\ ChatMessage.createdAt a = assistantNow env.
Proof.
  intros Hne.
  destruct (handleSend_pair rawText env st Hne)
    as (p & a & Hp & Hm & Hid & _ & Hat & Hctx & _).
  destruct (prepare_nonempty rawText (userUUID env) (userNow env) st Hne)
    as (p' & Hp' & Huid & _ & _ & Hut & _).
  assert (p' = p) as -> by congruence.
  destruct (prepare_context _ _ _ _ _ Hp) as (Hu & Ha & _).
  exists (userMessage p), a. split; [exact Hm|].
  split; [exact Hu|]. split; [by rewrite Hctx, Ha, Hu|]. done.
Qed.

Lemma handleSend_context_flags_witness :
  exists u a,
    messages (handleSend (Some (js "hello")) (Sample.env Sample.replyHi)
                (extractPageContext ExtractionThrows Sample.page
                   (initialState Sample.configuredSettings))).1 = [u; a]
    /\ ChatMessage.usingContext u = true
    /\ ChatMessage.usingContext a = true.
Proof.
  destruct (handleSend_context_flags (Some (js "hello"))
              (Sample.env Sample.replyHi)
              (extractPageContext ExtractionThrows Sample.page
                 (initialState Sample.configuredSettings)))
    as (u & a & Hm & Hu & Ha & _).
  - vm_compute. discriminate.
  - exists u, a. split; [exact Hm|]. split; [exact Hu|].
    by rewrite Ha, Hu.
Defined.

Lemma contentOfOutcome_failed outcome :
  failed outcome ->
  exists detail,
    contentOfOutcome outcome = VString (requestFailedPrefix ++ detail)
    /\ match outcome with
       | FetchThrows message => detail = message
       | FetchResponse false status _ =>
           detail = js "HTTP " ++ numberToString status
       | FetchResponse true _ (JsonThrows message) => detail = message
       | FetchResponse true _ (JsonParsed _) => False
       end.
Proof.
  destruct outcome as [message|[] status [data|message]];
    cbn [failed contentOfOutcome negb]; intros H; try done; by eexists.
Qed.

(** X8. A request that fails never ends the call without an answer in the
    list: the assistant message says [请求失败: ] followed by the message of
    the thrown error, or by [HTTP ] and the status in decimal when the
    status is no success (the body is not read then), or by the message of
    the error that the parsing of the body threw. *)
Theorem handleSend_request_failed rawText env st req :
  (handleSend rawText env st).2 = [req] ->
  failed (fetch env req) ->
  exists a earlier detail,
    messages (handleSend rawText env st).1 = earlier ++ [a]
    /\ ChatMessage.role a = assistant
    /\ ChatMessage.content a = VString (requestFailedPrefix ++ detail)
    /\ isSending (handleSend rawText env st).1 = false
    /\ match fetch env req with
       | FetchThrows message => detail = message
       | FetchResponse false status _ =>
           detail = js "HTTP " ++ numberToString status
       | FetchResponse true _ (JsonThrows message) => detail = message
       | FetchResponse true _ (JsonParsed _) => False
       end.
Proof.
  intros Hio Hfail.
  assert (req ∈ (handleSend rawText env st).2) as Hin
    by (rewrite Hio; apply list_elem_of_here).
  apply handleSend_requests in Hin as (p & Hp & Hc & ->).
  pose proof (prepare_Some_nonempty _ _ _ _ _ Hp) as Hne.
  destruct (handleSend_pair rawText env st Hne)
    as (p' & a & Hp' & Hm & _ & Hrole & _ & _ & Hcontent).
  assert (p' = p) as -> by congruence.
  rewrite Hc in Hcontent.
  destruct (contentOfOutcome_failed _ Hfail) as (detail & Hd & Hshape).
  exists a, (messages st ++ [userMessage p]), detail.
  split; [by rewrite Hm, <- app_assoc|]. split; [exact Hrole|].
  split; [by rewrite Hcontent|].
  split; [by apply handleSend_cells|exact Hshape].
Qed.

Lemma handleSend_request_failed_witness :
  exists a earlier,
    messages (handleSend (Some (js "hello"))
                (Sample.env (FetchResponse false 503%N
                               (JsonParsed (VObject []))))
                (initialState Sample.configuredSettings)).1 = earlier ++ [a]
    /\ ChatMessage.content a = VString (requestFailedPrefix ++ js "HTTP 503").
Proof.
  edestruct (handleSend_request_failed (Some (js "hello"))
               (Sample.env (FetchResponse false 503%N
                              (JsonParsed (VObject []))))
               (initialState Sample.configuredSettings))
    as (a & earlier & detail & Hm & _ & Hc & _ & Hd).
  - vm_compute. reflexivity.
  - exact I.
  - exists a, earlier. split; [exact Hm|].
    etrans; [exact Hc|]. vm_compute in Hd. rewrite Hd.
    vm_compute. reflexivity.
Defined.

(** X9. One call makes at most one [fetch], and it makes one exactly when
    the prompt, the effective [apiKey] and the effective [baseUrl] are all
    non-empty after trimming. *)
Theorem handleSend_fetch_iff rawText env st :
  length (handleSend rawText env st).2 <= 1
  /\ ((handleSend rawText env st).2 <> []
      <-> promptOf rawText st <> [] /\ effectiveApiKey st <> []
          /\ effectiveBaseUrl st <> []).
Proof.
  unfold handleSend.
  destruct (prepare _ _ _ _) as [p|] eqn:Hp.
  - pose proof (prepare_Some_nonempty _ _ _ _ _ Hp) as Hne.
    destruct (prepare_nonempty rawText (userUUID env) (userNow env) st Hne)
      as (p' & Hp' & _ & _ & _ & _ & Hk & Hb & _).
    assert (p' = p) as -> by congruence.
    destruct (configured p) eqn:Hc; cbn [snd length].
    + apply configured_iff in Hc. rewrite Hk, Hb in Hc.
      split; [lia|]. split; [done|]. intros _. discriminate.
    + split; [lia|]. split; [done|]. intros (_ & Hk' & Hb').
      assert (configured p = true) as Hc'
        by (apply configured_iff; by rewrite Hk, Hb).
      congruence.
  - cbn [snd length]. split; [lia|]. split; [done|].
    intros (Hne & _). exfalso. apply Hne.
    unfold prepare in Hp. by case_bool_decide.
Qed.

(** X10. Every request is a [POST] with a JSON content type and the header
    [Authorization: Bearer <key>], where the key is the effective [apiKey]:
    not empty, and without white space at either end.  Its [message] is the
    trimmed prompt. *)
Theorem request_line rawText env st req :
  req ∈ (handleSend rawText env st).2 ->
  FetchRequest.method req = js "POST"
  /\ FetchRequest.headers req
     = [ (js "Content-Type", js "application/json");
         (js "Authorization", js "Bearer " ++ effectiveApiKey st) ]
  /\ effectiveApiKey st <> []
  /\ trim (effectiveApiKey st) = effectiveApiKey st
  /\ Payload.message (FetchRequest.body req) = promptOf rawText st
  /\ trim (promptOf rawText st) = promptOf rawText st.
Proof.
  intros (p & Hp & Hc & ->)%handleSend_requests.
  pose proof (prepare_Some_nonempty _ _ _ _ _ Hp) as Hne.
  destruct (prepare_nonempty rawText (userUUID env) (userNow env) st Hne)
    as (p' & Hp' & _ & _ & _ & _ & Hk & _ & Hmsg & _).
  assert (p' = p) as -> by congruence.
  apply configured_iff in Hc as [Hkey _].
  cbn [chatRequest FetchRequest.method FetchRequest.headers
       FetchRequest.body].
  rewrite Hk in *. repeat split; try done.
  - apply trim_idempotent.
  - apply trim_idempotent.
Qed.

Lemma request_line_witness :
  exists req,
    (handleSend None (Sample.env Sample.replyHi) Sample.busyState).2 = [req]
    /\ FetchRequest.headers req
       = [ (js "Content-Type", js "application/json");
           (js "Authorization", js "Bearer k") ]
    /\ Payload.message (FetchRequest.body req) = js "next".
Proof.
  eexists. split; [vm_compute; reflexivity|].
  edestruct (request_line None (Sample.env Sample.replyHi) Sample.busyState)
    as (_ & Hh & _ & _ & Hm & _); [apply list_elem_of_here|].
  split; [exact Hh|exact Hm].
Defined.

(** X11. The [context] of a request is [null] exactly when the context is
    switched off or the page context is not there yet.  Otherwise it
    carries title, address, text and preview of the page context as they
    are, and the attachments by name and data URL, all of them and in their
    order; their identifiers are not sent. *)
Theorem request_context rawText env st req :
  req ∈ (handleSend rawText env st).2 ->
  (Payload.context (FetchRequest.body req) = None
   <-> includeContext st = false \/ pageContext st = None)
  /\ forall c,
       Payload.context (FetchRequest.body req) = Some c ->
       exists pc,
         pageContext st = Some pc
         /\ ContextPayload.title c = PageContext.title pc
         /\ ContextPayload.url c = PageContext.url pc
         /\ ContextPayload.text c = PageContext.text pc
         /\ ContextPayload.preview c = PageContext.preview pc
         /\ map AttachmentRef.name (ContextPayload.attachments c)
            = map Attachment.name (attachments st)
         /\ map AttachmentRef.dataUrl (ContextPayload.attachments c)
            = map Attachment.dataUrl (attachments st).
Proof.
  intros (p & Hp & _ & ->)%handleSend_requests.
  destruct (prepare_context _ _ _ _ _ Hp) as (_ & _ & Hctx & Hshape).
  cbn [chatRequest FetchRequest.body]. rewrite Hctx.
  destruct (contextPayload p) as [c|].
  - destruct Hshape as (Hinc & pc & Hpc & Ht & Hu & Htx & Hpv & Hatt).
    split.
    + split; [done|]. intros [H|H]; congruence.
    + intros c' [= <-]. exists pc. rewrite Hatt, !map_map. cbn.
      repeat split; done.
  - split; [done|]. intros c [=].
Qed.

Lemma request_context_witness :
  exists req c,
    (handleSend (Some (js "hello")) (Sample.env Sample.replyHi)
       (setAttachments (fun _ => [Sample.attachment "a" "1.png"])
          (extractPageContext ExtractionThrows Sample.page
             (initialState Sample.configuredSettings)))).2 = [req]
    /\ Payload.context (FetchRequest.body req) = Some c
    /\ map AttachmentRef.name (ContextPayload.attachments c) = [js "1.png"].
Proof.
  eexists. eexists. split; [vm_compute; reflexivity|].
  split; [reflexivity|].
  edestruct (request_context (Some (js "hello")) (Sample.env Sample.replyHi)
               (setAttachments (fun _ => [Sample.attachment "a" "1.png"])
                  (extractPageContext ExtractionThrows Sample.page
                     (initialState Sample.configuredSettings))))
    as [_ Hc]; [apply list_elem_of_here|].
  edestruct Hc as (pc & _ & _ & _ & _ & _ & Hn & _); [reflexivity|].
  exact Hn.
Defined.

(** X12. A request sent once the page has been extracted, with the context
    switched on, carries a context whose title is not empty, whose address
    is the address of the page and whose preview has at most 1200 code
    units, whether the extraction returned or threw. *)
Theorem request_after_extraction
    (outcome : Extraction) (page : Page) rawText env st req :
  includeContext st = true ->
  req ∈ (handleSend rawText env (extractPageContext outcome page st)).2 ->
  exists c,
    Payload.context (FetchRequest.body req) = Some c
    /\ ContextPayload.title c <> []
    /\ length (ContextPayload.preview c) <= 1200.
Proof.
  intros Hinc (p & Hp & _ & ->)%handleSend_requests.
  destruct (prepare_context _ _ _ _ _ Hp) as (_ & _ & Hctx & Hshape).
  destruct (extractPageContext_bounds outcome page st)
    as (pc & Hpc & Htitle & Hlen & _).
  cbn [chatRequest FetchRequest.body]. rewrite Hctx.
  destruct (contextPayload p) as [c|].
  - destruct Hshape as (_ & pc' & Hpc' & Ht & _ & _ & Hpv & _).
    assert (pc' = pc) as -> by congruence.
    exists c. split; [done|]. by rewrite Ht, Hpv.
  - rewrite extractPageContext_includeContext in Hshape.
    destruct Hshape; congruence.
Qed.

Lemma request_after_extraction_witness :
  exists req c,
    (handleSend (Some (js "hello")) (Sample.env Sample.replyHi)
       (extractPageContext (Parsed None) Sample.page
          (initialState Sample.configuredSettings))).2 = [req]
    /\ Payload.context (FetchRequest.body req) = Some c
    /\ ContextPayload.title c = defaultTitle
    /\ ContextPayload.preview c = js "menu Hello, world footer".
Proof.
  edestruct (request_after_extraction (Parsed None) Sample.page
               (Some (js "hello")) (Sample.env Sample.replyHi)
               (initialState Sample.configuredSettings))
    as (c & Hc & _ & _).
  - reflexivity.
  - apply list_elem_of_here.
  - eexists. exists c. split; [vm_compute; reflexivity|].
    split; [exact Hc|]. vm_compute in Hc. injection Hc as <-.
    split; vm_compute; reflexivity.
Defined.

(** X13. Once the effect has brought the reference cell in step with
    [messages], the history of the next request ends with the user message
    and the assistant message of the call before and the new user message,
    in this order, after at most three older entries. *)
Theorem history_carries_previous_exchange first env1 second env2 st req :
  promptOf first st <> [] ->
  req ∈ (handleSend second env2
           (syncMessagesRef (handleSend first env1 st).1)).2 ->
  exists u1 a1 older,
    messages (handleSend first env1 st).1 = messages st ++ [u1; a1]
    /\ Payload.history (FetchRequest.body req)
       = older
         ++ [ entryOf u1; entryOf a1;
              {| HistoryEntry.role := user;
                 HistoryEntry.content :=
                   VString
                     (promptOf second
                        (syncMessagesRef (handleSend first env1 st).1)) |} ]
    /\ length older <= 3.
Proof.
  intros Hne (p & Hp & _ & ->)%handleSend_requests.
  destruct (handleSend_messages first env1 st Hne) as (u1 & a1 & Hm & _).
  exists u1, a1, (map entryOf (sliceLast 3 (messages st))).
  split; [exact Hm|]. cbn [chatRequest FetchRequest.body].
  rewrite (prepared_history _ _ _ _ _ Hp).
  cbn [syncMessagesRef messagesRef]. rewrite Hm.
  change [u1; a1] with ([u1] ++ [a1]). rewrite app_assoc.
  rewrite !sliceLast_snoc, !map_app, <- !app_assoc. cbn [map app].
  split; [reflexivity|].
  rewrite length_map. apply sliceLast_length.
Qed.

Lemma history_carries_previous_exchange_witness :
  exists req,
    (handleSend (Some (js "again")) (Sample.env Sample.replyHi)
       (syncMessagesRef
          (handleSend (Some (js "hello")) (Sample.env Sample.replyHi)
             (initialState Sample.configuredSettings)).1)).2 = [req]
    /\ map HistoryEntry.content (Payload.history (FetchRequest.body req))
       = [VString (js "hello"); VString (js "hi"); VString (js "again")].
Proof.
  assert (exists req,
            (handleSend (Some (js "again")) (Sample.env Sample.replyHi)
               (syncMessagesRef
                  (handleSend (Some (js "hello")) (Sample.env Sample.replyHi)
                     (initialState Sample.configuredSettings)).1)).2 = [req])
    as [req Hreq] by (eexists; vm_compute; reflexivity).
  destruct (history_carries_previous_exchange (Some (js "hello"))
              (Sample.env Sample.replyHi) (Some (js "again"))
              (Sample.env Sample.replyHi)
              (initialState Sample.configuredSettings) req)
    as (u1 & a1 & older & _ & Hh & _).
  - vm_compute. discriminate.
  - rewrite Hreq. apply list_elem_of_here.
  - exists req. split; [exact Hreq|].
    vm_compute in Hreq. injection Hreq as <-. vm_compute. reflexivity.
Defined.

(** ** More on the tooltip *)

Section TooltipMore.

Lemma like_prefix_noLeadingSpace :
  likeTemplate ++ lineFeed <> []
  /\ noLeadingSpace (likeTemplate ++ lineFeed).
Proof. split; [vm_compute; discriminate|vm_compute; reflexivity]. Qed.

(** The prompt of a tooltip action is sent as it is. *)
Lemma tooltipPrompt_trimmed intent text :
  trim text <> [] ->
  trim (tooltipPrompt intent (trim text)) = tooltipPrompt intent (trim text)
  /\ tooltipPrompt intent (trim text) <> [].
Proof.
  intros Hne. destruct intent; cbn [tooltipPrompt].
  - split; [apply trim_idempotent|done].
  - destruct translate_prefix_noLeadingSpace as [Hp Hl].
    rewrite app_assoc. split; [by apply trim_app_trimmed|].
    intros [E _]%app_eq_nil. by apply Hp.
  - destruct like_prefix_noLeadingSpace as [Hp Hl].
    rewrite app_assoc. split; [by apply trim_app_trimmed|].
    intros [E _]%app_eq_nil. by apply Hp.
Qed.

Lemma trim_nil : trim [] = [].
Proof. reflexivity. Qed.

End TooltipMore.

(** X14. With no tooltip on the screen, or one without text, a tooltip
    action does nothing: no message, no request, the sidebar is not
    opened. *)
Theorem onTooltipAction_without_text intent env st :
  (forall t, tooltip st = Some t -> Tooltip.text t = []) ->
  onTooltipAction intent env st = (st, []).
Proof.
  intros H. unfold onTooltipAction.
  destruct (tooltip st) as [t|]; [|done].
  by rewrite (H t eq_refl), bool_decide_eq_true_2.
Qed.

Lemma onTooltipAction_without_text_witness :
  onTooltipAction like (Sample.env Sample.replyHi) Sample.busyState
  = (Sample.busyState, []).
Proof.
  apply (onTooltipAction_without_text like (Sample.env Sample.replyHi)
           Sample.busyState).
  intros t H. vm_compute in H. discriminate.
Defined.

(** X15. For each of the three actions of a tooltip whose text is not
    blank: the user message that is appended carries the trimmed text
    itself (chat), or the translation or the encouragement template, a line
    feed and the trimmed text; the tooltip is hidden, the sidebar is open,
    and the input box is emptied, whatever had been typed into it. *)
Theorem onTooltipAction_sends intent env st t :
  tooltip st = Some t ->
  trim (Tooltip.text t) <> [] ->
  let result := onTooltipAction intent env st in
  (exists u a,
     messages result.1 = messages st ++ [u; a]
     /\ ChatMessage.role u = user
     /\ ChatMessage.content u
        = VString
            match intent with
            | chat => trim (Tooltip.text t)
            | translate =>
                translateTemplate ++ lineFeed ++ trim (Tooltip.text t)
            | like => likeTemplate ++ lineFeed ++ trim (Tooltip.text t)
            end)
  /\ tooltip result.1 = None
  /\ sidebarOpen result.1 = true
  /\ input result.1 = [].
Proof.
  intros Htip Hne result.
  assert (Tooltip.text t <> []) as Htext.
  { intros E. apply Hne. rewrite E. apply trim_nil. }
  assert (result
          = handleSend (Some (tooltipPrompt intent (trim (Tooltip.text t))))
              env (setTooltip None (setSidebarOpen true st))) as ->.
  { unfold result, onTooltipAction. rewrite Htip.
    by rewrite bool_decide_eq_false_2. }
  destruct (tooltipPrompt_trimmed intent (Tooltip.text t) Hne) as [Hfix Hp].
  set (st0 := setTooltip None (setSidebarOpen true st)).
  assert (promptOf (Some (tooltipPrompt intent (trim (Tooltip.text t)))) st0
          = tooltipPrompt intent (trim (Tooltip.text t))) as Hprompt
    by exact Hfix.
  assert (promptOf (Some (tooltipPrompt intent (trim (Tooltip.text t)))) st0
          <> []) as Hsend by (by rewrite Hprompt).
  split; [|split; [|split]].
  - destruct (handleSend_messages _ env st0 Hsend) as (u & a & Hm & Hr & Hc & _).
    exists u, a. split; [exact Hm|]. split; [exact Hr|].
    rewrite Hc, Hprompt. by destruct intent.
  - by rewrite handleSend_tooltip.
  - by apply handleSend_sidebarOpen.
  - by apply handleSend_cells.
Qed.

Lemma onTooltipAction_sends_witness :
  let st := setTooltip (Some Sample.selectedTooltip) Sample.busyState in
  exists u a,
    messages (onTooltipAction chat (Sample.env Sample.replyHi) st).1
    = messages st ++ [u; a]
    /\ ChatMessage.content u = VString (js "good morning").
Proof.
  intros st.
  destruct (onTooltipAction_sends chat (Sample.env Sample.replyHi) st
              Sample.selectedTooltip)
    as ((u & a & Hm & _ & Hc) & _).
  - reflexivity.
  - vm_compute. discriminate.
  - exists u, a. split; [exact Hm|].
    etrans; [exact Hc|]. vm_compute. reflexivity.
Defined.

(** X16. [handleSelection] shows the tooltip exactly for a selection that
    is there, is not collapsed, has a range and whose text is not blank;
    the tooltip then holds the trimmed text, and [selectionMeta] its first
    120 code units.  Otherwise the tooltip is hidden and [selectionMeta]
    keeps the text of the selection before.  No other cell changes. *)
Theorem handleSelection_spec (selection : option Selection) (st : State) :
  match tooltip (handleSelection selection st) with
  | Some t =>
      exists sel,
        selection = Some sel /\ isCollapsed sel = false
        /\ rangeCount sel <> 0%N
        /\ Tooltip.text t = trim (selectedText sel)
        /\ Tooltip.text t <> []
        /\ Tooltip.x t = anchorX sel /\ Tooltip.y t = anchorY sel
        /\ selectionMeta (handleSelection selection st)
           = take 120 (Tooltip.text t)
  | None =>
      selectionMeta (handleSelection selection st) = selectionMeta st
      /\ (selection = None
          \/ exists sel,
               selection = Some sel
               /\ (isCollapsed sel = true \/ rangeCount sel = 0%N
                   \/ blank (selectedText sel)))
  end
  /\ messages (handleSelection selection st) = messages st
  /\ input (handleSelection selection st) = input st
  /\ sidebarOpen (handleSelection selection st) = sidebarOpen st
  /\ attachments (handleSelection selection st) = attachments st
  /\ isSending (handleSelection selection st) = isSending st.
Proof.
  unfold handleSelection. destruct selection as [sel|].
  - destruct (isCollapsed sel) eqn:Hcol; cbn [orb].
    { split; [|done]. cbn. split; [done|]. right. exists sel. tauto. }
    destruct (N.eqb_spec (rangeCount sel) 0) as [Hrc|Hrc].
    { split; [|done]. cbn. split; [done|]. right. exists sel. tauto. }
    case_bool_decide as Htext.
    + split; [|done]. cbn. split; [done|]. right. exists sel.
      split; [done|]. right. right. by apply trim_nil_iff.
    + split; [|done]. cbn. exists sel. repeat split; done.
  - split; [|done]. cbn. split; [done|]. by left.
Qed.

(** ** The message of the action button *)

Section Toggle.

Lemma onMessage_cases message st :
  (onMessage message st
   = (setSidebarOpen true st, Some (VObject [(js "ok", VBool true)]))
   /\ isObject message = true
   /\ optProp message (js "type") = VString toggleType)
  \/ (onMessage message st = (st, None)
      /\ (isObject message = false
          \/ optProp message (js "type") <> VString toggleType)).
Proof.
  unfold onMessage. destruct (isObject message); cbn [andb]; [|by right; auto].
  destruct (optProp message (js "type")) as [| | | |s| |] eqn:E;
    cbn [strictEqualsString]; try (right; split; [done|right; discriminate]).
  case_bool_decide as Hs.
  - left. by rewrite Hs.
  - right. split; [done|]. right. congruence.
Qed.

Lemma toggle_message_received st :
  onMessage (VObject [(js "type", VString toggleType)]) st
  = (setSidebarOpen true st, Some (VObject [(js "ok", VBool true)])).
Proof.
  destruct (onMessage_cases (VObject [(js "type", VString toggleType)]) st)
    as [(H & _)|(_ & [H|H])]; [done|discriminate|].
  exfalso. apply H. vm_compute. reflexivity.
Qed.

End Toggle.

(** X17. The listener answers a message exactly when it is an object whose
    [type] is ["AI_CHAT_TOGGLE"]: then the sidebar is open afterwards and
    the answer is [{ok: true}].  Any other message leaves the component as
    it is and gets no answer.  No message closes the sidebar: despite its
    name the toggle message only opens it. *)
Theorem onMessage_opens_only (message : Value) (st : State) :
  ((onMessage message st).2 <> None
   <-> isObject message = true
       /\ optProp message (js "type") = VString toggleType)
  /\ ((onMessage message st).2 <> None ->
      (onMessage message st).2 = Some (VObject [(js "ok", VBool true)])
      /\ (onMessage message st).1 = setSidebarOpen true st)
  /\ ((onMessage message st).2 = None -> (onMessage message st).1 = st)
  /\ (sidebarOpen st = true -> sidebarOpen (onMessage message st).1 = true).
Proof.
  destruct (onMessage_cases message st) as [(-> & Ho & Ht)|(-> & Hno)];
    cbn [fst snd].
  - split; [split; [done|discriminate]|]. split; [done|]. split; [done|].
    done.
  - split.
    { split; [done|]. intros [Ho Ht]. destruct Hno; congruence. }
    split; [done|]. split; done.
Qed.

(** X18. A click on the action button sends one message, of type
    ["AI_CHAT_TOGGLE"], to the tab that was clicked, provided the tab has
    an identifier and it is not 0; the content script of that tab then
    opens its sidebar, whatever state it is in, and answers [{ok: true}].
    Without an identifier, or with 0, nothing is sent. *)
Theorem action_click_opens_sidebar (tabId : option Z) (st : State) :
  match Background.toggleContentSidebar tabId with
  | Some (tab, message) =>
      tabId = Some tab /\ tab <> 0%Z
      /\ optProp message (js "type") = VString toggleType
      /\ sidebarOpen (onMessage message st).1 = true
      /\ (onMessage message st).2 = Some (VObject [(js "ok", VBool true)])
  | None => tabId = None \/ tabId = Some 0%Z
  end.
Proof.
  unfold Background.toggleContentSidebar. destruct tabId as [tab|]; [|by left].
  destruct (Z.eqb_spec tab 0) as [->|Hz]; [by right|].
  rewrite toggle_message_received. cbn [fst snd].
  split; [done|]. split; [done|]. split; [|done].
  vm_compute. reflexivity.
Qed.

(** ** More on attachments *)

Section AttachmentsMore.

Lemma setAttachments_same st :
  setAttachments (fun _ => attachments st) st = st.
Proof. by destruct st. Qed.

Lemma filter_all {A} (P : A -> Prop) `{!forall x, Decision (P x)}
    (l : list A) :
  Forall P l -> filter P l = l.
Proof.
  induction 1 as [|x l Hx _ IH]; [done|].
  rewrite filter_cons_True by done. by rewrite IH.
Qed.

Lemma removeAttachment_attachments id st :
  attachments (removeAttachment id st)
  = filter (fun item => Attachment.id item <> id) (attachments st).
Proof. reflexivity. Qed.

Lemma removeAttachment_as_set id st :
  removeAttachment id st
  = setAttachments
      (fun _ => filter (fun item => Attachment.id item <> id) (attachments st))
      st.
Proof. reflexivity. Qed.

Lemma runLoads_attachments events st :
  attachments (runLoads events st)
  = attachments st
    ++ map (fun e =>
              {| Attachment.id := e.2; Attachment.name := fileName e.1;
                 Attachment.dataUrl := fileDataUrl e.1 |}) events.
Proof.
  unfold runLoads. revert st.
  induction events as [|e events IH]; intros st; cbn [foldl map].
  - by rewrite app_nil_r.
  - rewrite IH. cbn [onload setAttachments attachments].
    by rewrite <- app_assoc.
Qed.

Lemma handleFileInput_length files : length (handleFileInput files) <= 3.
Proof.
  unfold handleFileInput. destruct files as [fs|]; [|cbn; lia].
  case_bool_decide; [cbn; lia|]. rewrite length_take. lia.
Qed.

End AttachmentsMore.

(** X19. Removing by identifier composes as expected: removing the same
    identifier twice is removing it once, two removals commute, removing an
    identifier that no attachment has changes nothing, and the list never
    grows. *)
Theorem removeAttachment_composes (id1 id2 : JSString) (st : State) :
  removeAttachment id1 (removeAttachment id1 st) = removeAttachment id1 st
  /\ removeAttachment id1 (removeAttachment id2 st)
     = removeAttachment id2 (removeAttachment id1 st)
  /\ (Forall (fun item => Attachment.id item <> id1) (attachments st) ->
      removeAttachment id1 st = st)
  /\ length (attachments (removeAttachment id1 st))
     <= length (attachments st).
Proof.
  split; [|split; [|split]].
  - destruct st. unfold removeAttachment, setAttachments. cbn. f_equal.
    rewrite list_filter_filter. apply list_filter_iff. tauto.
  - destruct st. unfold removeAttachment, setAttachments. cbn. f_equal.
    rewrite !list_filter_filter. apply list_filter_iff. tauto.
  - intros H. rewrite removeAttachment_as_set, filter_all by done.
    apply setAttachments_same.
  - rewrite removeAttachment_attachments. apply length_filter.
Qed.

(** X20. One choice of files starts at most three readers, for the first
    files of the choice.  Each reader that finishes appends one attachment
    with the name and the data URL of its file, in the order in which the
    readers finish, after the attachments that were there: so one choice
    adds at most three attachments. *)
Theorem handleFileInput_adds_at_most_three
    (files : option (list ImageFile)) (events : list (ImageFile * JSString))
    (st : State) :
  map fst events ⊆+ handleFileInput files ->
  handleFileInput files = take 3 (default [] files)
  /\ attachments (runLoads events st)
     = attachments st
       ++ map (fun e =>
                 {| Attachment.id := e.2; Attachment.name := fileName e.1;
                    Attachment.dataUrl := fileDataUrl e.1 |}) events
  /\ length (attachments (runLoads events st))
     <= length (attachments st) + 3
  /\ messages (runLoads events st) = messages st.
Proof.
  intros Hsub. split; [|split; [|split]].
  - unfold handleFileInput. destruct files as [fs|]; [|done].
    case_bool_decide as Hlen; [|done].
    destruct fs; [done|discriminate].
  - apply runLoads_attachments.
  - rewrite runLoads_attachments, length_app, length_map.
    apply submseteq_length in Hsub. rewrite length_map in Hsub.
    pose proof (handleFileInput_length files). lia.
  - unfold runLoads. clear Hsub. revert st.
    induction events as [|e events IH]; intros st; cbn [foldl]; [done|].
    by rewrite IH.
Qed.

Lemma handleFileInput_adds_at_most_three_witness :
  map Attachment.name
    (attachments
       (runLoads [(Sample.photo "b.png", js "id-b");
                  (Sample.photo "a.png", js "id-a")]
          (initialState defaultSettings)))
  = [js "b.png"; js "a.png"].
Proof.
  destruct (handleFileInput_adds_at_most_three
              (Some [Sample.photo "a.png"; Sample.photo "b.png";
                     Sample.photo "c.png"; Sample.photo "d.png"])
              [(Sample.photo "b.png", js "id-b");
               (Sample.photo "a.png", js "id-a")]
              (initialState defaultSettings))
    as (_ & Hatt & _).
  - cbn [map fst handleFileInput]. rewrite bool_decide_eq_false_2 by done.
    cbn [take].
    etrans; [apply submseteq_swap|].
    do 2 apply submseteq_skip. apply submseteq_nil_l.
  - rewrite Hatt. vm_compute. reflexivity.
Defined.

(** X21. An attachment that was added under a fresh identifier is taken
    away again by removing that identifier, and the component is as
    before. *)
Theorem onload_then_remove (file : ImageFile) (uuid : JSString) (st : State) :
  Forall (fun item => Attachment.id item <> uuid) (attachments st) ->
  removeAttachment uuid (onload file uuid st) = st.
Proof.
  intros Hfresh. rewrite removeAttachment_as_set.
  cbn [onload setAttachments attachments].
  rewrite filter_app, filter_all by done.
  rewrite filter_cons_False by (cbn; tauto).
  rewrite filter_nil, app_nil_r. by destruct st.
Qed.

Lemma onload_then_remove_witness :
  removeAttachment (js "id-a")
    (onload (Sample.photo "a.png") (js "id-a")
       (initialState defaultSettings))
  = initialState defaultSettings.
Proof.
  apply (onload_then_remove (Sample.photo "a.png") (js "id-a")
           (initialState defaultSettings)).
  constructor.
Defined.

(** ** Saving and resetting the settings *)

Section Saving.

Lemma get_update_all_keys a b c store :
  (get (update {| apiKey_opt := Some a; baseUrl_opt := Some b;
                  includeContextByDefault_opt := Some c |} store)).1
  = {| apiKey := a; baseUrl := b; includeContextByDefault := c |}.
Proof. by destruct store. Qed.

Lemma get_reset store : (get (reset store)).1 = defaultSettings.
Proof. by destruct store as [[]|]. Qed.

Lemma orString_same a : orString a a = a.
Proof. unfold orString. by case_bool_decide. Qed.

Lemma orString_nonempty_l a b : a <> [] -> orString a b = a.
Proof. intros H. unfold orString. by rewrite bool_decide_eq_false_2. Qed.

Lemma optionsHasChanges_synced (st : OptionsPage.State) :
  OptionsPage.hasChanges (OptionsPage.syncFromSettings st) = false.
Proof.
  unfold OptionsPage.hasChanges. cbn.
  rewrite !bool_decide_eq_true_2 by done. by rewrite eqb_reflx.
Qed.

Lemma optionsSync_drafts s (st : OptionsPage.State) :
  OptionsPage.draftApiKey
    (OptionsPage.syncFromSettings (OptionsPage.withSettings s st)) = apiKey s
  /\ OptionsPage.draftBaseUrl
       (OptionsPage.syncFromSettings (OptionsPage.withSettings s st))
     = baseUrl s
  /\ OptionsPage.includeContext
       (OptionsPage.syncFromSettings (OptionsPage.withSettings s st))
     = includeContextByDefault s.
Proof. done. Qed.

End Saving.

(** X22. Saving in the options page stores the two drafts trimmed and the
    context switch, whatever the store held before.  Once the new settings
    have reached the page and the effect has run, the drafts are the
    trimmed texts, the save button is disabled again ([hasChanges] is
    false), and a second save stores the same record. *)
Theorem saveSettings_then_sync (st : OptionsPage.State) (store : Store) :
  let saved := (get (OptionsPage.saveSettings st store).2).1 in
  let st' :=
    OptionsPage.syncFromSettings
      (OptionsPage.withSettings saved (OptionsPage.saveSettings st store).1) in
  saved = {| apiKey := trim (OptionsPage.draftApiKey st);
             baseUrl := trim (OptionsPage.draftBaseUrl st);
             includeContextByDefault := OptionsPage.includeContext st |}
  /\ OptionsPage.draftApiKey st' = trim (OptionsPage.draftApiKey st)
  /\ OptionsPage.draftBaseUrl st' = trim (OptionsPage.draftBaseUrl st)
  /\ OptionsPage.includeContext st' = OptionsPage.includeContext st
  /\ OptionsPage.hasChanges st' = false
  /\ OptionsPage.saving st' = false
  /\ (get (OptionsPage.saveSettings st'
             (OptionsPage.saveSettings st store).2).2).1 = saved.
Proof.
  cbn zeta. unfold OptionsPage.saveSettings, OptionsPage.savedUpdate.
  cbn [fst snd]. rewrite !get_update_all_keys.
  destruct (optionsSync_drafts
              {| apiKey := trim (OptionsPage.draftApiKey st);
                 baseUrl := trim (OptionsPage.draftBaseUrl st);
                 includeContextByDefault := OptionsPage.includeContext st |}
              (OptionsPage.setSaving false (OptionsPage.setSaving true st)))
    as (-> & -> & ->).
  cbn [apiKey baseUrl includeContextByDefault].
  split; [done|]. split; [done|]. split; [done|]. split; [done|].
  split; [apply optionsHasChanges_synced|]. split; [done|].
  by rewrite !trim_idempotent.
Qed.

(** X23. Resetting in the options page stores the default record; once it
    has reached the page, the drafts are empty, the context switch is on
    and the save button is disabled, whatever had been typed. *)
Theorem resetSettings_then_sync (st : OptionsPage.State) (store : Store) :
  let stored := (get (OptionsPage.resetSettings st store).2).1 in
  let st' :=
    OptionsPage.syncFromSettings
      (OptionsPage.withSettings stored
         (OptionsPage.resetSettings st store).1) in
  stored = defaultSettings
  /\ OptionsPage.draftApiKey st' = []
  /\ OptionsPage.draftBaseUrl st' = []
  /\ OptionsPage.includeContext st' = true
  /\ OptionsPage.hasChanges st' = false
  /\ OptionsPage.saving st' = false.
Proof.
  cbn zeta. unfold OptionsPage.resetSettings. cbn [fst snd].
  rewrite get_reset.
  split; [done|]. split; [done|]. split; [done|]. split; [done|].
  split; [apply optionsHasChanges_synced|done].
Qed.

(** X24. A draft that differs from the stored settings by white space at
    its ends only is a change for the save button, and saving it stores the
    record that was stored already. *)
Theorem saveSettings_of_padded_draft (st : OptionsPage.State) (store : Store) :
  (get store).1 = OptionsPage.settings st ->
  trim (OptionsPage.draftApiKey st) = apiKey (OptionsPage.settings st) ->
  trim (OptionsPage.draftBaseUrl st) = baseUrl (OptionsPage.settings st) ->
  OptionsPage.includeContext st
  = includeContextByDefault (OptionsPage.settings st) ->
  (get (OptionsPage.saveSettings st store).2).1 = (get store).1
  /\ (OptionsPage.draftApiKey st <> apiKey (OptionsPage.settings st) ->
      OptionsPage.hasChanges st = true).
Proof.
  intros Hget Hk Hb Hi. split.
  - unfold OptionsPage.saveSettings, OptionsPage.savedUpdate. cbn [snd].
    rewrite get_update_all_keys, Hget, Hk, Hb, Hi.
    by destruct (OptionsPage.settings st).
  - intros Hne. unfold OptionsPage.hasChanges.
    by rewrite (bool_decide_eq_false_2 _ Hne).
Qed.

Lemma saveSettings_of_padded_draft_witness :
  let st :=
    OptionsPage.setDraftApiKey (js " k ")
      (OptionsPage.initialState Sample.configuredSettings) in
  (get (OptionsPage.saveSettings st (Some Sample.configuredSettings)).2).1
  = Sample.configuredSettings
  /\ OptionsPage.hasChanges st = true.
Proof.
  intros st.
  destruct (saveSettings_of_padded_draft st (Some Sample.configuredSettings))
    as [Hsame Hchg]; [reflexivity ..|].
  split; [exact Hsame|]. apply Hchg. vm_compute. discriminate.
Defined.

(** X25. Saving from the sidebar stores the trimmed inline fields and the
    context switch.  After the new settings have come back, the effective
    [apiKey] and [baseUrl] are what they were if the inline field was not
    empty.  An empty inline field erases the stored value: sends used the
    stored value before, and have none afterwards. *)
Theorem persistSettings_then_sync (st : State) (store : Store) :
  let saved := (get (persistSettings st store).2).1 in
  let st' :=
    syncFromSettings (withSettings saved (persistSettings st store).1) in
  saved = {| apiKey := trim (inlineApiKey st);
             baseUrl := trim (inlineBaseUrl st);
             includeContextByDefault := includeContext st |}
  /\ (inlineApiKey st <> [] -> effectiveApiKey st' = effectiveApiKey st)
  /\ (inlineBaseUrl st <> [] -> effectiveBaseUrl st' = effectiveBaseUrl st)
  /\ (inlineApiKey st = [] ->
      effectiveApiKey st' = []
      /\ effectiveApiKey st = trim (apiKey (settings st)))
  /\ includeContext st' = includeContext st
  /\ savingSettings st' = false
  /\ messages st' = messages st.
Proof.
  cbn zeta. unfold persistSettings, persistedUpdate. cbn [fst snd].
  rewrite get_update_all_keys. split; [done|].
  unfold effectiveApiKey, effectiveBaseUrl. cbn.
  rewrite !orString_same, !trim_idempotent.
  split; [intros H; by rewrite orString_nonempty_l|].
  split; [intros H; by rewrite orString_nonempty_l|].
  split; [|done]. intros ->. split; [done|].
  unfold orString. by rewrite bool_decide_eq_true_2.
Qed.

(** X26. Updates compose with the last write winning: after [update(U1)]
    and [update(U2)], a key has the value of [U2] if [U2] has it, else the
    value of [U1] if [U1] has it, else its value before.  An update without
    keys changes nothing that [get()] returns. *)
Theorem update_twice (store : Store) (U1 U2 : PartialAiSettings) (k : Key) :
  field k (get (update U2 (update U1 store))).1
  = match field_opt k U2, field_opt k U1 with
    | Some v, _ => v
    | None, Some v => v
    | None, None => field k (get store).1
    end
  /\ (get (update {| apiKey_opt := None; baseUrl_opt := None;
                     includeContextByDefault_opt := None |} store)).1
     = (get store).1.
Proof.
  split.
  - unfold update. rewrite !get_after_set_update, !field_spread.
    destruct (field_opt k U2), (field_opt k U1); reflexivity.
  - unfold update. rewrite get_after_set_update.
    by destruct (get store).1.
Qed.

(** X27. Switching the context off and on again gives the component as it
    was.  While it is off there is no preview line, and a request carries
    [context: null], also when the page has been extracted. *)
Theorem toggleContext_switches rawText env (st : State) :
  toggleContext (toggleContext st) = st
  /\ includeContext (toggleContext st) = negb (includeContext st)
  /\ (includeContext st = true ->
      contextPreview (toggleContext st) = None
      /\ forall req,
           req ∈ (handleSend rawText env (toggleContext st)).2 ->
           Payload.context (FetchRequest.body req) = None).
Proof.
  split; [by destruct st as [? ? ? [|] ? ? ? ? ? ? ? ? ? ?]|].
  split; [done|]. intros Hinc. split.
  - unfold contextPreview. cbn. by rewrite Hinc.
  - intros req (p & Hp & _ & ->)%handleSend_requests.
    destruct (prepare_context _ _ _ _ _ Hp) as (_ & _ & Hctx & Hshape).
    cbn [chatRequest FetchRequest.body]. rewrite Hctx.
    destruct (contextPayload p) as [c|]; [|done].
    destruct Hshape as [Hon _]. cbn in Hon. rewrite Hinc in Hon.
    discriminate.
Qed.

(** ** The send button *)

(** X28. A click on the send button while it is enabled always sends: the
    trimmed content of the input box becomes a user message, followed by
    the assistant message.  The call empties the input box, so the button
    is disabled again afterwards.  A button that is disabled because the
    input is blank guards a call that would have done nothing. *)
Theorem send_button_click env (st : State) :
  (sendDisabled st = false ->
   exists u a,
     messages (handleSend None env st).1 = messages st ++ [u; a]
     /\ ChatMessage.content u = VString (trim (input st))
     /\ sendDisabled (handleSend None env st).1 = true)
  /\ (trim (input st) = [] ->
      sendDisabled st = true /\ handleSend None env st = (st, [])).
Proof.
  split.
  - intros [_ Hin]%orb_false_elim. apply bool_decide_eq_false in Hin.
    destruct (handleSend_messages None env st Hin) as (u & a & Hm & _ & Hc & _).
    exists u, a. split; [exact Hm|]. split; [exact Hc|].
    destruct (handleSend_cells None env st Hin) as (Hinput & Hsending & _).
    unfold sendDisabled. rewrite Hinput, Hsending. reflexivity.
  - intros Hblank. split.
    + unfold sendDisabled. rewrite bool_decide_eq_true_2 by done.
      apply orb_true_r.
    + unfold handleSend. by rewrite prepare_empty.
Qed.
